(** * examples/lm.py: the character-level language-model example script

    A shallow embedding of the orchestration code of [examples/lm.py]:
    command-line dispatch, corpus loading, the train/test split, the
    training loop with its NaN guard, and the save/load of the model file.
    The numerical machinery (Theano graphs, the LSTM, the optimizer, beam
    search, pickle) is imported by the script; it enters the development
    as the fields of the [Library] class. *)

From Stdlib Require Import Floats.SpecFloat Strings.Byte.
From stdpp Require Import base gmap list strings.

Open Scope Z_scope.
Open Scope nat_scope.

(** ** Python strings *)

(** A Python [str] is a sequence of Unicode code points; [len] counts
    code points. *)
Definition pystr := list N.

Definition str (s : string) : pystr :=
  Ascii.N_of_ascii <$> String.list_ascii_of_string s.

(** The characters removed by [str.strip()] without argument: the code
    points for which [str.isspace] holds. *)
Definition isspace (c : N) : bool :=
  ((9 <=? c) && (c <=? 13) || (28 <=? c) && (c <=? 32)
   || (c =? 133) || (c =? 160) || (c =? 5760)
   || (8192 <=? c) && (c <=? 8202)
   || (c =? 8232) || (c =? 8233) || (c =? 8239) || (c =? 8287)
   || (c =? 12288))%N.

Fixpoint lstrip (s : pystr) : pystr :=
  match s with
  | c :: s' => if isspace c then lstrip s' else s
  | [] => []
  end.

Definition rstrip (s : pystr) : pystr := reverse (lstrip (reverse s)).

Definition strip (s : pystr) : pystr := rstrip (lstrip s).

(** ** Corpus loading (lm.py, lines 153-154)

    [sents = [line.strip() for line in f if len(line) >= 10]].
    The argument is the sequence of lines that iterating the text file
    yields; each of them still carries its line terminator. *)
Fixpoint read_sents (lines : list pystr) : list pystr :=
  match lines with
  | [] => []
  | line :: rest =>
      if 10 <=? length line
      then strip line :: read_sents rest
      else read_sents rest
  end.

Example read_sents_ex :
  read_sents [str "  hello brave new world
"; str "short
"; str "0123456789"]
  = [str "hello brave new world"; str "0123456789"].
Proof. reflexivity. Qed.

(** ** Data model *)

(** An encoded sentence: the integer symbol ids of its characters. *)
Abbreviation sentence := (list Z).

(** The loss values returned by the compiled Theano functions are IEEE
    floating-point numbers. *)
Definition float := spec_float.

(** [np.isnan] *)
Definition isnan (x : float) : bool :=
  match x with
  | S754_nan => true
  | _ => false
  end.

(** [np.isfinite] *)
Definition isfinite (x : float) : bool :=
  match x with
  | S754_zero _ | S754_finite _ _ _ => true
  | S754_infinity _ | S754_nan => false
  end.

(** The configuration dictionary (lm.py, lines 160-168).  Its keys are
    fixed, so it is a record. *)
Record config := Config {
  n_symbols : nat;
  symbols : list pystr;
  index : gmap pystr Z;
  embedding_dims : Z;
  state_dims : Z;
  layernorm : string;
  dropout : float
}.

(** The double nearest to 0.2. *)
Definition dropout_rate : float := S754_finite false 7205759403792794 (-55).

(** A masked mini-batch: the symbol matrix and its mask. *)
Definition masked : Type := list (list Z) * list (list bool).

(** What the script writes with [print]; number formatting is left out. *)
Inductive message :=
| MsgLoaded (path : string)
| MsgTestLoss (test_loss : float)
| MsgNaN (iteration : nat)
| MsgBatch (iteration batch_nr : nat) (loss : float)
| MsgSaved (path : string)
| MsgPrediction (score : float) (sent : list Z).

(** The observable actions of a run, in the order they happen.  A call
    of a compiled function is recorded with its arguments and the loss it
    returned. *)
Inductive event :=
| EvNew (c : config)                      (* LanguageModel('lm', config) *)
| EvEval (b : masked) (loss : float)      (* cross_entropy(...) *)
| EvStep (b : masked) (loss : float)      (* optimizer.step(...) *)
| EvSearch (start stop : Z) (max_length min_length : nat)
| EvPrint (m : message).

(** The events of training: optimizer steps and loss evaluations. *)
Definition is_training (e : event) : bool :=
  match e with
  | EvStep _ _ | EvEval _ _ => true
  | _ => false
  end.

(** The arguments of the optimizer steps of a trace, in order. *)
Definition step_inputs (evs : list event) : list masked :=
  omap (λ e, match e with EvStep b _ => Some b | _ => None end) evs.

Inductive exn :=
| IndexError
| AssertionError
| KeyError
| FileNotFoundError
| UnpicklingError
| LoadError.

(** ** The imported library

    Everything the script imports and merely calls.  [Params] stands for
    the values of the Theano shared variables (model parameters and
    optimizer state), which [optimizer.step] updates in place. *)
Class Library := {
  Params : Type;
  (** the lines of a file opened with [open(name, 'r', encoding='utf-8')] *)
  text_lines : list byte → list pystr;
  (** [bnas.text.encode_sequences] *)
  encode_sequences : list pystr → list pystr * gmap pystr Z * list sentence;
  (** [bnas.optimize.iterate_batches(data, batch_size, len)] *)
  iterate_batches : list sentence → nat → list (list sentence);
  (** the value that fills the padding positions of a batch *)
  pad_symbol : Z;
  (** [LanguageModel('lm', config)]: the freshly initialised parameters *)
  LanguageModel_new : config → Params;
  (** [Nesterov(...).step] *)
  optimizer_step : Params → masked → Params * float;
  (** the compiled [cross_entropy] function *)
  cross_entropy : Params → masked → float;
  (** [pickle.dump] and [pickle.load] on a configuration; [pickle_load]
      returns the unread remainder of the stream *)
  pickle_dump : config → list byte;
  pickle_load : list byte → option (config * list byte);
  (** [Model.save] and [Model.load] *)
  Model_save : Params → list byte;
  Model_load : Params → list byte → option Params;
  (** [bnas.search.beam] with the script's step function *)
  beam : Params → nat → Z → Z → nat → nat → list (float * list Z)
}.

(** ** Mini-batches *)

(** Modelled from the spec: [bnas.text.mask_sequences] is not part of the
    inspected source.  The spec describes its result as a rectangular
    integer matrix of the encoded sentences, padded to a common length
    that the given maximum caps, with a boolean mask of the valid
    positions.  Row [i] of either matrix belongs to sentence [i]. *)
Definition common_length (batch : list sentence) (max_length : nat) : nat :=
  max_length `min` max_list (length <$> batch).

Definition pad_row (pad : Z) (n : nat) (s : sentence) : list Z :=
  take n s ++ replicate (n - length s) pad.

Definition mask_row (n : nat) (s : sentence) : list bool :=
  replicate (n `min` length s) true ++ replicate (n - length s) false.

Definition mask_sequences_with (pad : Z) (batch : list sentence)
    (max_length : nat) : masked :=
  let n := common_length batch max_length in
  (pad_row pad n <$> batch, mask_row n <$> batch).

Example mask_sequences_ex :
  mask_sequences_with 0 [[5; 6; 7]%Z; [8]%Z; [1; 2; 3; 4; 5]%Z] 4
  = ([[5; 6; 7; 0]; [8; 0; 0; 0]; [1; 2; 3; 4]]%Z,
     [[true; true; true; false]; [true; false; false; false];
      [true; true; true; true]]).
Proof. reflexivity. Qed.

(** ** The process: file system, console and exceptions *)

Record world := World {
  files : gmap string (list byte);
  trace : list event
}.

(** A computation either returns a value or raises; either way it leaves
    a world behind. *)
Definition M (A : Type) : Type := world → (exn + A) * world.

Definition ret {A} (a : A) : M A := λ w, (inr a, w).

Definition raise {A} (e : exn) : M A := λ w, (inl e, w).

Definition bind {A B} (m : M A) (k : A → M B) : M B :=
  λ w, match m w with
       | (inr a, w') => k a w'
       | (inl e, w') => (inl e, w')
       end.

Notation "'let*' x ':=' m 'in' k" := (bind m (λ x, k))
  (at level 10, x binder, k at level 200).
Notation "m ';;' k" := (bind m (λ _, k))
  (at level 100, k at level 200, right associativity).

Definition tell (evs : list event) : M unit :=
  λ w, (inr tt, World (files w) (trace w ++ evs)).

Definition print (m : message) : M unit := tell [EvPrint m].

(** [assert b] *)
Definition assert (b : bool) : M unit :=
  if b then ret tt else raise AssertionError.

(** [sys.argv[k]] *)
Definition argv_get (argv : list string) (k : nat) : M string :=
  match argv !! k with
  | Some a => ret a
  | None => raise IndexError
  end.

(** [d[key]] on a dictionary *)
Definition dict_get (d : gmap pystr Z) (key : pystr) : M Z :=
  match d !! key with
  | Some v => ret v
  | None => raise KeyError
  end.

(** [os.path.exists] *)
Definition path_exists (path : string) : M bool :=
  λ w, (inr (bool_decide (is_Some (files w !! path))), w).

(** The content of a file opened for reading. *)
Definition open_read (path : string) : M (list byte) :=
  λ w, match files w !! path with
       | Some content => (inr content, w)
       | None => (inl FileNotFoundError, w)
       end.

(** [open(path, 'wb')] creates or truncates the file. *)
Definition open_wb (path : string) : M unit :=
  λ w, (inr tt, World (<[path := []]> (files w)) (trace w)).

(** Writing to the file object appends to what has been written. *)
Definition fwrite (path : string) (data : list byte) : M unit :=
  λ w, (inr tt,
        World (<[path := default [] (files w !! path) ++ data]> (files w))
              (trace w)).

Definition from_option {A} (e : exn) (o : option A) : M A :=
  match o with
  | Some a => ret a
  | None => raise e
  end.

(** ** The script *)

Section Script.
Context `{Library}.

Definition mask_sequences : list sentence → nat → masked :=
  mask_sequences_with pad_symbol.

(** lm.py, lines 173-175 *)
Definition batch_size : nat := 128.
Definition test_size : nat := 128.
Definition max_length : nat := 128.

(** The body of [for batch in iterate_batches(...)] (lines 205-226), run
    over the batches of one epoch.  [break] ends the recursion.  The
    result is the parameters, [batch_nr] and what happened. *)
Fixpoint train_batches (i : nat) (test : masked)
    (batches : list (list sentence)) (lm : Params) (batch_nr : nat)
    : Params * nat * list event :=
  match batches with
  | [] => (lm, batch_nr, [])
  | batch :: rest =>
      let b := mask_sequences batch max_length in
      let report :=
        if batch_nr mod 10 =? 0
        then let test_loss := cross_entropy lm test in
             [EvEval test test_loss; EvPrint (MsgTestLoss test_loss)]
        else [] in
      let '(lm', loss) := optimizer_step lm b in
      if isnan loss
      then (lm', batch_nr,
            report ++ [EvStep b loss; EvPrint (MsgNaN (i + 1))])
      else
        let '(lm'', n, evs) :=
          train_batches i test rest lm' (batch_nr + 1) in
        (lm'', n,
         report ++ EvStep b loss
                :: EvPrint (MsgBatch (i + 1) (batch_nr + 1) loss) :: evs)
  end.

(** [for i in range(...)] (line 204): [break] leaves only the loop over
    the batches, so the next epoch, if there is one, still runs. *)
Fixpoint train_epochs (epochs : list nat) (test : masked)
    (train_set : list sentence) (lm : Params) (batch_nr : nat)
    : Params * nat * list event :=
  match epochs with
  | [] => (lm, batch_nr, [])
  | i :: later =>
      let '(lm', n, evs) :=
        train_batches i test (iterate_batches train_set batch_size)
                      lm batch_nr in
      let '(lm'', n', evs') := train_epochs later test train_set lm' n in
      (lm'', n', evs ++ evs')
  end.

(** Lines 198-226 with [range(1)] and [batch_nr = 0]. *)
Definition train (encoded : list sentence) (lm : Params)
    : Params * list event :=
  let test_set := take test_size encoded in
  let train_set := drop test_size encoded in
  let test := mask_sequences test_set max_length in
  let '(lm', _, evs) := train_epochs (seq 0 1) test train_set lm 0 in
  (lm', evs).

(** Lines 142-148. *)
Definition load_model (model_filename : string) : M (config * Params) :=
  let* f := open_read model_filename in
  let* '(config, f) := from_option UnpicklingError (pickle_load f) in
  tell [EvNew config];;
  let* lm := from_option LoadError
               (Model_load (LanguageModel_new config) f) in
  print (MsgLoaded model_filename);;
  ret (config, lm).

(** Lines 228-231. *)
Definition save_model (model_filename : string) (config : config)
    (lm : Params) : M unit :=
  open_wb model_filename;;
  fwrite model_filename (pickle_dump config);;
  fwrite model_filename (Model_save lm);;
  print (MsgSaved model_filename).

(** The model hyperparameters (lines 160-168). *)
Definition new_config (symbols : list pystr) (index : gmap pystr Z)
    : config := {|
  n_symbols := length symbols;
  symbols := symbols;
  index := index;
  embedding_dims := 64;
  state_dims := 1024;
  layernorm := "c";
  dropout := dropout_rate
|}.

(** Lines 150-231. *)
Definition train_model (argv : list string) (model_filename : string)
    : M (config * Params) :=
  let* corpus_filename := argv_get argv 2 in
  let* found := path_exists corpus_filename in
  assert found;;
  let* f := open_read corpus_filename in
  let sents := read_sents (text_lines f) in
  let '(symbols, index, encoded) := encode_sequences sents in
  let config := new_config symbols index in
  tell [EvNew config];;
  let '(lm, evs) := train encoded (LanguageModel_new config) in
  tell evs;;
  save_model model_filename config lm;;
  ret (config, lm).

(** What the training branch leaves behind before inference starts. *)
Definition trained_world (w : world) (model : string) (text : list byte)
    : config * Params * world :=
  let '(symbols, index, encoded) :=
    encode_sequences (read_sents (text_lines text)) in
  let config := new_config symbols index in
  let '(lm, evs) := train encoded (LanguageModel_new config) in
  (config, lm,
   World (<[model := pickle_dump config ++ Model_save lm]> (files w))
         (trace w ++ EvNew config :: evs ++ [EvPrint (MsgSaved model)])).

(** [LanguageModel.search] (lines 109-131) hands its arguments to the
    library's beam search. *)
Definition LanguageModel_search (lm : Params) (batch_size : nat)
    (start_symbol stop_symbol : Z) (max_length min_length : nat)
    : list (float * list Z) :=
  beam lm batch_size start_symbol stop_symbol max_length min_length.

(** Lines 233-237. *)
Definition infer (config : config) (lm : Params) : M unit :=
  let* start := dict_get (index config) (str "<S>") in
  let* stop := dict_get (index config) (str "</S>") in
  tell [EvSearch start stop 72 72];;
  tell ((λ r, EvPrint (MsgPrediction r.1 r.2))
          <$> LanguageModel_search lm 1 start stop 72 72).

(** The [__main__] block (lines 139-237).  It returns the configuration
    and the parameters the process holds when it ends. *)
Definition main (argv : list string) : M (config * Params) :=
  let* model_filename := argv_get argv 1 in
  let* found := path_exists model_filename in
  let* '(config, lm) :=
    if found then load_model model_filename
    else train_model argv model_filename in
  infer config lm;;
  ret (config, lm).

End Script.

(** ** A scripted library

    An instance of [Library] that can be run: the optimizer replays a
    given list of loss values, sentences are encoded over the characters
    they contain, batches are consecutive chunks, and the serialisers
    write self-delimiting byte strings.  It is what the examples below
    are evaluated on. *)
Module Scripted.

Record codec (A : Type) := Codec {
  enc : A → list byte;
  dec : list byte → option (A * list byte)
}.
Arguments Codec {A} _ _.
Arguments enc {A} _ _.
Arguments dec {A} _ _.

Fixpoint enc_pos (p : positive) : list byte :=
  match p with
  | xH => [x00]
  | xO p => x01 :: enc_pos p
  | xI p => x02 :: enc_pos p
  end%byte.

Fixpoint dec_pos (bs : list byte) : option (positive * list byte) :=
  match bs with
  | [] => None
  | b :: bs =>
      match Byte.to_N b with
      | 0%N => Some (xH, bs)
      | 1%N => (λ r, (xO r.1, r.2)) <$> dec_pos bs
      | 2%N => (λ r, (xI r.1, r.2)) <$> dec_pos bs
      | _ => None
      end
  end.

Definition positive_codec : codec positive := Codec enc_pos dec_pos.

(** Transport along [g : B → A] with left inverse [f]. *)
Definition via {A B} (f : A → B) (g : B → A) (c : codec A) : codec B :=
  Codec (λ b, enc c (g b)) (λ bs, (λ r, (f r.1, r.2)) <$> dec c bs).

Definition pair_codec {A B} (ca : codec A) (cb : codec B) : codec (A * B) :=
  Codec (λ x, enc ca x.1 ++ enc cb x.2)
        (λ bs, match dec ca bs with
               | Some (a, bs') => (λ r, ((a, r.1), r.2)) <$> dec cb bs'
               | None => None
               end).

Definition N_codec : codec N := via Pos.pred_N N.succ_pos positive_codec.
Definition nat_codec : codec nat := via N.to_nat N.of_nat N_codec.
Definition bool_codec : codec bool :=
  via (λ n, bool_decide (n = 1%N)) (λ b : bool, if b then 1%N else 0%N)
      N_codec.
Definition Z_codec : codec Z :=
  via (λ x : bool * N, if x.1 then (- Z.of_N x.2)%Z else Z.of_N x.2)
      (λ z, (bool_decide (z < 0)%Z, Z.abs_N z))
      (pair_codec bool_codec N_codec).

Fixpoint dec_items {A} (c : codec A) (n : nat) (bs : list byte)
    : option (list A * list byte) :=
  match n with
  | 0 => Some ([], bs)
  | S n =>
      match dec c bs with
      | Some (a, bs') => (λ r, (a :: r.1, r.2)) <$> dec_items c n bs'
      | None => None
      end
  end.

Definition list_codec {A} (c : codec A) : codec (list A) :=
  Codec (λ l, enc nat_codec (length l) ++ concat (enc c <$> l))
        (λ bs, match dec nat_codec bs with
               | Some (n, bs') => dec_items c n bs'
               | None => None
               end).

Definition pystr_codec : codec pystr := list_codec N_codec.

Definition string_codec : codec string :=
  via (λ l, String.string_of_list_ascii (Ascii.ascii_of_N <$> l)) str
      pystr_codec.

Definition float_codec : codec float :=
  via (λ x : N * (bool * (positive * Z)),
         match x with
         | (0%N, (s, _)) => S754_zero s
         | (1%N, (s, _)) => S754_infinity s
         | (2%N, _) => S754_nan
         | (_, (s, (m, e))) => S754_finite s m e
         end)
      (λ f, match f with
            | S754_zero s => (0%N, (s, (1%positive, 0%Z)))
            | S754_infinity s => (1%N, (s, (1%positive, 0%Z)))
            | S754_nan => (2%N, (false, (1%positive, 0%Z)))
            | S754_finite s m e => (3%N, (s, (m, e)))
            end)
      (pair_codec N_codec
         (pair_codec bool_codec (pair_codec positive_codec Z_codec))).

Definition dict_codec : codec (gmap pystr Z) :=
  via list_to_map map_to_list (list_codec (pair_codec pystr_codec Z_codec)).

Definition config_codec : codec config :=
  via (λ x : nat * (list pystr * (gmap pystr Z * (Z * (Z * (string * float))))),
         let '(n, (sy, (ix, (ed, (sd, (ln, dr)))))) := x in
         Config n sy ix ed sd ln dr)
      (λ c, (n_symbols c, (symbols c, (index c, (embedding_dims c,
             (state_dims c, (layernorm c, dropout c)))))))
      (pair_codec nat_codec
        (pair_codec (list_codec pystr_codec)
          (pair_codec dict_codec
            (pair_codec Z_codec
              (pair_codec Z_codec (pair_codec string_codec float_codec)))))).

(** The lines of a text, each with its terminator. *)
Fixpoint split_lines (cur : pystr) (text : list N) : list pystr :=
  match text with
  | [] => if cur is [] then [] else [reverse cur]
  | c :: text =>
      if (c =? 10)%N then reverse (c :: cur) :: split_lines [] text
      else split_lines (c :: cur) text
  end.

Definition vocabulary (sents : list pystr) : list pystr :=
  [str "<S>"; str "</S>"] ++ ((λ c, [c]) <$> remove_dups (concat sents)).

Definition encode (sents : list pystr)
    : list pystr * gmap pystr Z * list sentence :=
  let symbols := vocabulary sents in
  let index : gmap pystr Z :=
    list_to_map (zip symbols (Z.of_nat <$> seq 0 (length symbols))) in
  (symbols, index,
   (λ s, 0%Z :: ((λ c, default 0%Z (index !! [c])) <$> s) ++ [1%Z])
     <$> sents).

Fixpoint chunks {A} (fuel n : nat) (l : list A) : list (list A) :=
  match fuel with
  | 0 => []
  | S fuel =>
      match l with
      | [] => []
      | _ => take n l :: chunks fuel n (drop n l)
      end
  end.

Definition replay (losses : list float) : list float * float :=
  match losses with
  | [] => ([], S754_zero false)
  | loss :: rest => (rest, loss)
  end.

(** The library whose optimizer returns [losses], one per step. *)
Definition library (losses : list float) : Library := {|
  Params := list float;
  text_lines := λ bs, split_lines [] (Byte.to_N <$> bs);
  encode_sequences := encode;
  iterate_batches := λ data n, chunks (length data) n data;
  pad_symbol := 0%Z;
  LanguageModel_new := λ _, losses;
  optimizer_step := λ p _, replay p;
  cross_entropy := λ _ _, S754_zero false;
  pickle_dump := enc config_codec;
  pickle_load := dec config_codec;
  Model_save := enc (list_codec float_codec);
  Model_load := λ _ bs, fst <$> dec (list_codec float_codec) bs;
  beam := λ _ n start stop max_length min_length,
            replicate n (S754_zero false,
                         replicate (max_length - 1) start ++ [stop])
|}.

(** The bytes of an ASCII text. *)
Definition bytes (s : string) : list byte := String.list_byte_of_string s.

(** A corpus of [n] equal lines, and a world that holds it. *)
Definition corpus (n : nat) : list byte :=
  concat (replicate n (bytes "hello world
")).

Definition fresh (n : nat) : world :=
  World {[ "corpus.txt" := corpus n ]} [].

(** What a later process finds: the files as they were left, and an
    empty console. *)
Definition reopened (w : world) : world := World (files w) [].

(** The encoding of one short sentence, and batches of its copies. *)
Definition abc : sentence := [0; 2; 1]%Z.

Definition copies (n : nat) : masked :=
  mask_sequences_with 0 (replicate n abc) 128.

Definition zero : float := S754_zero false.

(** A small configuration. *)
Definition abc_config : config :=
  new_config [str "<S>"; str "</S>"; str "a"]
             (list_to_map [(str "<S>", 0%Z); (str "</S>", 1%Z);
                           (str "a", 2%Z)]).

(** A library whose encoder knows no symbol at all, not even the
    sentence markers. *)
Definition mute : Library := {|
  Params := list float;
  text_lines := λ bs, split_lines [] (Byte.to_N <$> bs);
  encode_sequences := λ sents, ([], ∅, (λ _, []) <$> sents);
  iterate_batches := λ data n, chunks (length data) n data;
  pad_symbol := 0%Z;
  LanguageModel_new := λ _, [];
  optimizer_step := λ p _, replay p;
  cross_entropy := λ _ _, S754_zero false;
  pickle_dump := enc config_codec;
  pickle_load := dec config_codec;
  Model_save := enc (list_codec float_codec);
  Model_load := λ _ bs, fst <$> dec (list_codec float_codec) bs;
  beam := λ _ _ _ _ _ _, []
|}.

End Scripted.

(** ** Reading a trace *)


(** The batch numbers of the progress lines, in order. *)
Definition batch_numbers (evs : list event) : list nat :=
  omap (λ e, match e with
             | EvPrint (MsgBatch _ n _) => Some n
             | _ => None
             end) evs.

(** The parameters after stepping the optimizer through [batches]. *)
Definition run_steps `{Library} (lm : Params)
    (batches : list (list sentence)) : Params :=
  foldl (λ p batch, (optimizer_step p (mask_sequences batch max_length)).1)
        lm batches.

(** ** Printing the predictions (lm.py, lines 236-237) *)

(** [l[x]] on a Python sequence: a negative index counts from the end,
    and an index outside [-len(l), len(l)) raises IndexError ([None]). *)
Definition py_getitem {A} (l : list A) (x : Z) : option A :=
  if decide (0 ≤ x)%Z then l !! Z.to_nat x
  else if decide (- Z.of_nat (length l) ≤ x)%Z
       then l !! Z.to_nat (Z.of_nat (length l) + x)
       else None.

(** [''.join(symbols[x] for x in sent.flatten())], for a prediction
    [sent] given by its rows. *)
Definition render (symbols : list pystr) (sent : list (list Z))
    : option pystr :=
  (λ texts, concat texts) <$> mapM (py_getitem symbols) (concat sent).

(** [for sent, score in zip(pred, scores): print(score, ...)]: the lines
    printed, each a score and a text, and whether the loop was ended by
    an IndexError. *)
Fixpoint print_predictions (symbols : list pystr)
    (pred : list (list (list Z))) (scores : list float)
    : list (float * pystr) * bool :=
  match pred, scores with
  | sent :: pred, score :: scores =>
      match render symbols sent with
      | Some text =>
          let r := print_predictions symbols pred scores in
          ((score, text) :: r.1, r.2)
      | None => ([], true)
      end
  | _, _ => ([], false)
  end.

(** * Properties *)

(** ** Corpus loading *)

Lemma read_sents_filter (lines : list pystr) :
  read_sents lines = strip <$> filter (λ line, 10 ≤ length line) lines.
Proof.
  induction lines as [|line rest IH]; [done|].
  cbn [read_sents]. rewrite filter_cons.
  destruct (Nat.leb_spec 10 (length line)) as [Hlen|Hlen].
  - rewrite decide_True by done. by rewrite fmap_cons, IH.
  - rewrite decide_False by lia. done.
Qed.

(** C2, as the code has it: the length test is made on the line as read,
    with its terminator and surrounding blanks, and the line is stripped
    afterwards.  The kept sentences are the stripped lines of raw length
    at least 10, in order; a line is dropped exactly when its raw length
    is below 10. *)
Theorem read_sents_keeps_long_raw_lines (lines : list pystr) :
  read_sents lines = strip <$> filter (λ line, 10 ≤ length line) lines
  ∧ (∀ s, s ∈ read_sents lines
          ↔ ∃ line, line ∈ lines ∧ 10 ≤ length line ∧ s = strip line)
  ∧ length (read_sents lines)
    = length (filter (λ line, 10 ≤ length line) lines).
Proof.
  rewrite read_sents_filter. split_and!; [done| |by rewrite length_fmap].
  intros s. rewrite list_elem_of_fmap. split.
  - intros (line & -> & Hin). apply list_elem_of_filter in Hin as [??].
    eauto.
  - intros (line & Hin & Hlen & ->). exists line. split; [done|].
    by apply list_elem_of_filter.
Qed.

(** C2, as stated, fails: a line of nine characters and its newline
    passes the test, and the sentence kept for it has nine characters. *)
Lemma read_sents_short_sentence :
  read_sents [str "abcdefghi
"] = [str "abcdefghi"]
  ∧ length (str "abcdefghi") = 9
  ∧ ¬ (∀ lines s, s ∈ read_sents lines → 10 ≤ length s).
Proof.
  split_and!; [reflexivity..|].
  intros Hall.
  specialize (Hall [str "abcdefghi
"] (str "abcdefghi")).
  assert (10 ≤ length (str "abcdefghi")) as Hlen.
  { apply Hall. vm_compute. apply list_elem_of_here. }
  vm_compute in Hlen. lia.
Qed.

(** ** Mini-batches *)

Lemma pad_row_length pad n s : length (pad_row pad n s) = n.
Proof.
  unfold pad_row. rewrite length_app, length_take, length_replicate. lia.
Qed.

Lemma mask_row_length n s : length (mask_row n s) = n.
Proof. unfold mask_row. rewrite length_app, !length_replicate. lia. Qed.

Lemma pad_row_lookup pad n (s : sentence) j :
  j < n → pad_row pad n s !! j = Some (default pad (s !! j)).
Proof.
  intros Hj. unfold pad_row.
  destruct (decide (j < length s)) as [Hin|Hout].
  - rewrite lookup_app_l by (rewrite length_take; lia).
    rewrite lookup_take_lt by done.
    destruct (lookup_lt_is_Some_2 s j Hin) as [x ->]. done.
  - rewrite lookup_app_r by (rewrite length_take; lia).
    rewrite lookup_replicate_2 by (rewrite length_take; lia).
    by rewrite lookup_ge_None_2 by lia.
Qed.

Lemma mask_row_lookup n (s : sentence) j :
  j < n → mask_row n s !! j = Some (bool_decide (j < length s)).
Proof.
  intros Hj. unfold mask_row.
  destruct (decide (j < length s)) as [Hin|Hout].
  - rewrite lookup_app_l by (rewrite length_replicate; lia).
    rewrite lookup_replicate_2 by lia. by rewrite bool_decide_eq_true_2.
  - rewrite lookup_app_r by (rewrite length_replicate; lia).
    rewrite lookup_replicate_2 by (rewrite length_replicate; lia).
    by rewrite bool_decide_eq_false_2.
Qed.

Lemma common_length_fits (batch : list sentence) max_length s :
  s ∈ batch → length s `min` max_length ≤ common_length batch max_length.
Proof.
  intros Hin. unfold common_length.
  assert (length s ≤ max_list (length <$> batch)).
  { apply max_list_elem_of_le, list_elem_of_fmap. eauto. }
  lia.
Qed.

(** C7: the batch built from a list of encoded sentences is rectangular.
    Both matrices have one row per sentence, every row has the common
    length, which is at most the given maximum and leaves out no position
    below that maximum; the mask is true at position [j] of row [i]
    exactly when sentence [i] has a symbol there, the matrix then holds
    that symbol, and holds the padding value where the mask is false. *)
Theorem mask_sequences_rectangular (pad : Z) (batch : list sentence)
    (max_length : nat) :
  let n := common_length batch max_length in
  let b := mask_sequences_with pad batch max_length in
  n ≤ max_length
  ∧ (∀ s, s ∈ batch → length s `min` max_length ≤ n)
  ∧ length b.1 = length batch ∧ length b.2 = length batch
  ∧ Forall (λ row, length row = n) b.1
  ∧ Forall (λ row, length row = n) b.2
  ∧ (∀ i s j, batch !! i = Some s → j < n →
       (b.2 !! i ≫= (.!! j)) = Some (bool_decide (j < length s))
       ∧ (b.1 !! i ≫= (.!! j)) = Some (default pad (s !! j))).
Proof.
  intros n b. subst b. unfold mask_sequences_with. fold n. cbn [fst snd].
  split_and!.
  - unfold n, common_length. lia.
  - intros s Hin. by apply common_length_fits.
  - by rewrite length_fmap.
  - by rewrite length_fmap.
  - apply Forall_fmap, Forall_forall. intros s _. apply pad_row_length.
  - apply Forall_fmap, Forall_forall. intros s _. apply mask_row_length.
  - intros i s j Hi Hj. rewrite !list_lookup_fmap, Hi. cbn.
    split; [by apply mask_row_lookup|by apply pad_row_lookup].
Qed.

(** ** The training loop *)

Lemma cons_eq_app_cons {A} (x y : A) xs pre post :
  x :: xs = pre ++ y :: post →
  (pre = [] ∧ x = y ∧ xs = post)
  ∨ ∃ pre', pre = x :: pre' ∧ xs = pre' ++ y :: post.
Proof. destruct pre as [|z pre]; cbn; intros [= -> ->]; eauto. Qed.

(** Moves past the first event of a trace that is split around a
    later one. *)
Ltac skip_event H :=
  apply cons_eq_app_cons in H as [(_ & [=] & _)|(? & -> & H)].

Section Training.
Context `{Library}.

Lemma train_batches_nan_last i test batches lm batch_nr pre b loss post :
  (train_batches i test batches lm batch_nr).2
    = pre ++ EvStep b loss :: post →
  isnan loss = true →
  post = [EvPrint (MsgNaN (i + 1))].
Proof.
  revert lm batch_nr pre.
  induction batches as [|batch rest IH]; intros lm batch_nr pre Hevs Hnan.
  { cbn in Hevs. by destruct pre. }
  cbn [train_batches] in Hevs.
  destruct (optimizer_step lm (mask_sequences batch max_length))
    as [lm' loss0] eqn:Hstep.
  destruct (train_batches i test rest lm' (batch_nr + 1))
    as [[lm'' n] evs] eqn:Hrest.
  assert (∀ pre,
    EvStep (mask_sequences batch max_length) loss0
      :: (if isnan loss0 then [EvPrint (MsgNaN (i + 1))]
          else EvPrint (MsgBatch (i + 1) (batch_nr + 1) loss0) :: evs)
    = pre ++ EvStep b loss :: post →
    post = [EvPrint (MsgNaN (i + 1))]) as Hhere.
  { clear Hevs pre. intros pre Hevs.
    apply cons_eq_app_cons in Hevs as [(_ & [= _ <-] & <-)|(? & -> & Hevs)].
    - by rewrite Hnan.
    - destruct (isnan loss0).
      + skip_event Hevs. by destruct x0.
      + skip_event Hevs. eapply IH; [|done]. rewrite Hrest. done. }
  destruct (batch_nr mod 10 =? 0), (isnan loss0); cbn in Hevs.
  - do 2 skip_event Hevs. by eapply Hhere.
  - do 2 skip_event Hevs. by eapply Hhere.
  - by eapply Hhere.
  - by eapply Hhere.
Qed.

Lemma train_events encoded lm :
  (train encoded lm).2
  = (train_batches 0 (mask_sequences (take test_size encoded) max_length)
       (iterate_batches (drop test_size encoded) batch_size) lm 0).2.
Proof.
  unfold train. cbn [seq train_epochs].
  destruct (train_batches _ _ _ _ _) as [[lm' n] evs]. cbn.
  by rewrite app_nil_r.
Qed.

(** C1, for NaN: when an optimizer step of a training run returns NaN,
    the only thing the training loop still does is print the abort
    message; in particular no optimizer step follows. *)
Theorem train_stops_at_nan encoded lm pre b loss post :
  (train encoded lm).2 = pre ++ EvStep b loss :: post →
  isnan loss = true →
  post = [EvPrint (MsgNaN 1)] ∧ step_inputs post = [].
Proof.
  rewrite train_events. intros Hevs Hnan.
  apply train_batches_nan_last in Hevs; [|done]. by subst post.
Qed.

Lemma train_batches_steps i test batches lm batch_nr :
  step_inputs (train_batches i test batches lm batch_nr).2
    `prefix_of` (λ batch, mask_sequences batch max_length) <$> batches.
Proof.
  revert lm batch_nr.
  induction batches as [|batch rest IH]; intros lm batch_nr; [done|].
  cbn [train_batches].
  destruct (optimizer_step lm (mask_sequences batch max_length))
    as [lm' loss0].
  specialize (IH lm' (batch_nr + 1)).
  destruct (train_batches i test rest lm' (batch_nr + 1))
    as [[lm'' n] evs].
  rewrite fmap_cons.
  destruct (batch_nr mod 10 =? 0), (isnan loss0); cbn;
    solve [by apply prefix_cons | apply prefix_cons, prefix_nil].
Qed.

Lemma train_batches_evals i test batches lm batch_nr b loss :
  EvEval b loss ∈ (train_batches i test batches lm batch_nr).2 → b = test.
Proof.
  revert lm batch_nr.
  induction batches as [|batch rest IH]; intros lm batch_nr.
  { cbn. by intros ?%elem_of_nil. }
  cbn [train_batches].
  destruct (optimizer_step lm (mask_sequences batch max_length))
    as [lm' loss0].
  specialize (IH lm' (batch_nr + 1)).
  destruct (train_batches i test rest lm' (batch_nr + 1))
    as [[lm'' n] evs].
  destruct (batch_nr mod 10 =? 0), (isnan loss0); cbn;
    rewrite ?elem_of_cons, ?elem_of_nil; intuition congruence.
Qed.

(** C10: the first [test_size] encoded sentences are the test set and
    the others the training set; the two meet nowhere and make up the
    corpus.  The optimizer is stepped on batches of the training set
    only, in the order [iterate_batches] gives them, and the test set is
    what the cross-entropy is evaluated on. *)
Theorem train_test_split (encoded : list sentence) lm :
  let test_set := take test_size encoded in
  let train_set := drop test_size encoded in
  test_size = 128
  ∧ test_set ++ train_set = encoded
  ∧ length test_set = test_size `min` length encoded
  ∧ (∀ i, i < test_size → test_set !! i = encoded !! i)
  ∧ (∀ i, train_set !! i = encoded !! (test_size + i))
  ∧ step_inputs (train encoded lm).2
      `prefix_of` (λ batch, mask_sequences batch max_length)
                    <$> iterate_batches train_set batch_size
  ∧ (∀ b loss, EvEval b loss ∈ (train encoded lm).2 →
               b = mask_sequences test_set max_length).
Proof.
  intros test_set train_set. split_and!.
  - done.
  - apply take_drop.
  - apply length_take.
  - intros i Hi. by apply lookup_take_lt.
  - intros i. apply lookup_drop.
  - rewrite train_events. apply train_batches_steps.
  - intros b loss. rewrite train_events. apply train_batches_evals.
Qed.

End Training.

(** ** The whole script *)

Section Main.
Context `{Library}.

Lemma save_model_run model c lm w :
  save_model model c lm w
  = (inr tt,
     World (<[model := pickle_dump c ++ Model_save lm]> (files w))
           (trace w ++ [EvPrint (MsgSaved model)])).
Proof.
  unfold save_model, bind, open_wb, fwrite, print, tell. cbn.
  rewrite !lookup_insert_eq. cbn. by rewrite !insert_insert_eq.
Qed.

Lemma train_model_run argv w model corpus text :
  argv !! 2 = Some corpus →
  files w !! corpus = Some text →
  train_model argv model w
  = let '(c, lm, w') := trained_world w model text in (inr (c, lm), w').
Proof.
  intros Harg Hfile.
  unfold train_model, trained_world, save_model, bind, argv_get,
    path_exists, open_read, open_wb, fwrite, assert, print, tell, ret, raise.
  rewrite Harg. cbn. rewrite Hfile.
  rewrite bool_decide_eq_true_2 by eauto. cbn. rewrite Hfile.
  destruct (encode_sequences (read_sents (text_lines text)))
    as [[symbols index] encoded].
  destruct (train encoded (LanguageModel_new (new_config symbols index)))
    as [lm evs]. cbn.
  rewrite !lookup_insert_eq. cbn. rewrite !insert_insert_eq.
  by rewrite <- !app_assoc.
Qed.

Lemma load_model_run w model content c rest lm :
  files w !! model = Some content →
  pickle_load content = Some (c, rest) →
  Model_load (LanguageModel_new c) rest = Some lm →
  load_model model w
  = (inr (c, lm),
     World (files w) (trace w ++ [EvNew c; EvPrint (MsgLoaded model)])).
Proof.
  intros Hfile Hcfg Hlm.
  unfold load_model, bind, open_read, from_option, tell, print, ret.
  rewrite Hfile, Hcfg. cbn. rewrite Hlm. cbn.
  by rewrite <- app_assoc.
Qed.

(** Inference writes no file and steps no optimizer. *)
Lemma infer_run c lm w :
  ∃ evs, (infer c lm w).2 = World (files w) (trace w ++ evs)
         ∧ Forall (λ e, is_training e = false) evs.
Proof.
  unfold infer, bind, dict_get, tell, ret, raise.
  destruct (index c !! str "<S>") as [start|],
    (index c !! str "</S>") as [stop|]; cbn.
  2-4: exists []; rewrite app_nil_r; destruct w; split; [done|constructor].
  exists (EvSearch start stop 72 72
          :: ((λ r, EvPrint (MsgPrediction r.1 r.2))
                <$> LanguageModel_search lm 1 start stop 72 72)).
  split; [by rewrite <- app_assoc|].
  constructor; [done|].
  apply Forall_fmap, Forall_forall. done.
Qed.

Lemma load_model_quiet model w :
  ∃ evs, (load_model model w).2 = World (files w) (trace w ++ evs)
         ∧ Forall (λ e, is_training e = false) evs.
Proof.
  unfold load_model, bind, open_read, from_option, tell, print, ret, raise.
  destruct (files w !! model) as [content|]; cbn.
  2: { exists []. rewrite app_nil_r. destruct w. split; [done|constructor]. }
  destruct (pickle_load content) as [[c rest]|]; cbn.
  2: { exists []. rewrite app_nil_r. destruct w. split; [done|constructor]. }
  destruct (Model_load (LanguageModel_new c) rest) as [lm|]; cbn.
  - exists [EvNew c; EvPrint (MsgLoaded model)].
    split; [by rewrite <- app_assoc|by repeat constructor].
  - exists [EvNew c]. split; [done|by repeat constructor].
Qed.

Lemma main_found argv w model :
  argv !! 1 = Some model →
  is_Some (files w !! model) →
  main argv w
  = (let* '(c, lm) := load_model model in infer c lm;; ret (c, lm)) w.
Proof.
  intros Harg Hfile. unfold main, argv_get. rewrite Harg.
  unfold bind at 1. cbn. unfold bind at 1, path_exists.
  by rewrite bool_decide_eq_true_2.
Qed.

Lemma main_missing argv w model :
  argv !! 1 = Some model →
  files w !! model = None →
  main argv w
  = (let* '(c, lm) := train_model argv model in infer c lm;; ret (c, lm)) w.
Proof.
  intros Harg Hfile. unfold main, argv_get. rewrite Harg.
  unfold bind at 1. cbn. unfold bind at 1, path_exists.
  rewrite bool_decide_eq_false_2; [done|].
  rewrite Hfile. by intros [? [=]].
Qed.

Lemma main_trains argv w model corpus text :
  argv !! 1 = Some model →
  files w !! model = None →
  argv !! 2 = Some corpus →
  files w !! corpus = Some text →
  main argv w
  = let '(c, lm, w') := trained_world w model text in
    (infer c lm;; ret (c, lm)) w'.
Proof.
  intros Harg Hfile Harg2 Hcorpus.
  rewrite (main_missing _ _ model) by done. unfold bind at 1.
  rewrite (train_model_run _ _ _ _ _ Harg2 Hcorpus).
  by destruct (trained_world w model text) as [[c lm] w'].
Qed.

(** C4: the dispatch on the model file.  When the file named by the first
    argument exists, the run writes no file and neither steps the
    optimizer nor evaluates a loss; if the file holds a configuration and
    parameters, these are loaded and inference runs on them.  When the
    file does not exist and the second argument names an existing corpus,
    the run trains on that corpus, saves, and then runs inference on the
    trained model. *)
Theorem main_dispatch argv w model :
  argv !! 1 = Some model →
  (is_Some (files w !! model) →
     (∃ evs, (main argv w).2 = World (files w) (trace w ++ evs)
             ∧ Forall (λ e, is_training e = false) evs)
     ∧ ∀ content c rest lm,
         files w !! model = Some content →
         pickle_load content = Some (c, rest) →
         Model_load (LanguageModel_new c) rest = Some lm →
         main argv w
         = (infer c lm;; ret (c, lm))
             (World (files w)
                    (trace w ++ [EvNew c; EvPrint (MsgLoaded model)])))
  ∧ (files w !! model = None →
     ∀ corpus text,
       argv !! 2 = Some corpus →
       files w !! corpus = Some text →
       main argv w
       = let '(c, lm, w') := trained_world w model text in
         (infer c lm;; ret (c, lm)) w').
Proof.
  intros Harg. split.
  - intros Hfile. rewrite (main_found _ _ model) by done. split.
    + destruct (load_model_quiet model w) as (evs & Hw & Hevs).
      unfold bind at 1.
      destruct (load_model model w) as [[e|[c lm]] w1]; cbn in Hw; subst w1.
      { by exists evs. }
      destruct (infer_run c lm (World (files w) (trace w ++ evs)))
        as (evs' & Hw' & Hevs').
      unfold bind, ret.
      destruct (infer c lm _) as [[e|[]] w2]; cbn in Hw'; subst w2; cbn;
        (exists (evs ++ evs');
         split; [by rewrite app_assoc|by apply Forall_app]).
    + intros content c rest lm Hcontent Hcfg Hlm.
      unfold bind at 1.
      by rewrite (load_model_run _ _ _ _ _ _ Hcontent Hcfg Hlm).
  - intros Hfile corpus text Harg2 Hcorpus. by apply (main_trains _ _ _ corpus).
Qed.

(** C9: without the model file, a run that has no second argument, or
    whose second argument names no existing file, raises and leaves the
    world as it found it: nothing is written and no model is built. *)
Theorem main_needs_corpus argv w model :
  argv !! 1 = Some model →
  files w !! model = None →
  (argv !! 2 = None → main argv w = (inl IndexError, w))
  ∧ (∀ corpus, argv !! 2 = Some corpus → files w !! corpus = None →
               main argv w = (inl AssertionError, w)).
Proof.
  intros Harg Hfile. rewrite (main_missing _ _ model) by done.
  unfold train_model, bind, argv_get, path_exists, assert, ret, raise.
  split.
  - by intros ->.
  - intros corpus -> Hcorpus. cbn. rewrite Hcorpus.
    rewrite bool_decide_eq_false_2; [done|]. by intros [? [=]].
Qed.

(** C8: a training run always ends by writing the model file, with the
    pickled configuration followed by the parameters the training loop
    ended with, and reports it, whatever losses the optimizer returned,
    NaN included. *)
Theorem main_saves_after_training argv w model corpus text :
  argv !! 1 = Some model →
  files w !! model = None →
  argv !! 2 = Some corpus →
  files w !! corpus = Some text →
  let '(symbols, index, encoded) :=
    encode_sequences (read_sents (text_lines text)) in
  let config := new_config symbols index in
  let lm := (train encoded (LanguageModel_new config)).1 in
  files (main argv w).2 !! model
    = Some (pickle_dump config ++ Model_save lm)
  ∧ EvPrint (MsgSaved model) ∈ trace (main argv w).2.
Proof.
  intros Harg Hfile Harg2 Hcorpus.
  rewrite (main_trains _ _ _ _ _ Harg Hfile Harg2 Hcorpus).
  unfold trained_world.
  destruct (encode_sequences (read_sents (text_lines text)))
    as [[symbols index] encoded].
  destruct (train encoded (LanguageModel_new (new_config symbols index)))
    as [lm evs]. cbn [fst].
  unfold bind, ret.
  match goal with |- context [infer ?c ?p ?w0] =>
    destruct (infer_run c p w0) as (evs' & Hw & _);
    destruct (infer c p w0) as [[e|[]] w1]
  end; cbn in Hw; subst w1; cbn; rewrite lookup_insert_eq.
  all: split; [done|].
  all: rewrite !elem_of_app, !elem_of_cons, !elem_of_app, list_elem_of_singleton;
       tauto.
Qed.

(** C5: the model file is the pickled configuration followed by the
    saved parameters; loading unpickles the configuration from the start
    of the file and reads the parameters from what follows. *)
Theorem model_file_layout model c lm w content :
  files (save_model model c lm w).2 !! model
    = Some (pickle_dump c ++ Model_save lm)
  ∧ (load_model model (World (<[model := content]> (files w)) (trace w))).1
    = match pickle_load content with
      | None => inl UnpicklingError
      | Some (c', rest) =>
          match Model_load (LanguageModel_new c') rest with
          | None => inl LoadError
          | Some lm' => inr (c', lm')
          end
      end.
Proof.
  split.
  - rewrite save_model_run. cbn. apply lookup_insert_eq.
  - unfold load_model, bind, open_read, from_option, tell, print, ret, raise.
    cbn. rewrite lookup_insert_eq.
    destruct (pickle_load content) as [[c' rest]|]; cbn; [|done].
    by destruct (Model_load (LanguageModel_new c') rest).
Qed.

(** C3: loading the file that [save_model] wrote gives back the saved
    configuration, vocabulary and hyperparameters alike, provided pickle
    reads back what it wrote for this configuration. *)
Theorem save_load_config model c lm w :
  pickle_load (pickle_dump c ++ Model_save lm) = Some (c, Model_save lm) →
  (load_model model (save_model model c lm w).2).1
  = match Model_load (LanguageModel_new c) (Model_save lm) with
    | Some lm' => inr (c, lm')
    | None => inl LoadError
    end.
Proof.
  intros Hpickle. rewrite save_model_run. cbn [snd].
  unfold load_model, bind, open_read, from_option, tell, print, ret, raise.
  cbn. rewrite lookup_insert_eq, Hpickle. cbn.
  by destruct (Model_load (LanguageModel_new c) (Model_save lm)).
Qed.

End Main.

(** ** Runs of the scripted library *)

(** C1, witness: 129 sentences leave one training batch; its step
    returns NaN and the abort message ends the loop. *)
Lemma train_stops_at_nan_run :
  (@train (Scripted.library [S754_nan])
          (replicate 129 Scripted.abc) [S754_nan]).2
  = [EvEval (Scripted.copies 128) Scripted.zero;
     EvPrint (MsgTestLoss Scripted.zero)]
    ++ EvStep (Scripted.copies 1) S754_nan :: [EvPrint (MsgNaN 1)]
  ∧ isnan S754_nan = true
  ∧ [EvPrint (MsgNaN 1)] = [EvPrint (MsgNaN 1)]
  ∧ step_inputs [EvPrint (MsgNaN 1)] = [].
Proof.
  assert ((@train (Scripted.library [S754_nan])
                  (replicate 129 Scripted.abc) [S754_nan]).2
          = [EvEval (Scripted.copies 128) Scripted.zero;
             EvPrint (MsgTestLoss Scripted.zero)]
            ++ EvStep (Scripted.copies 1) S754_nan :: [EvPrint (MsgNaN 1)])
    as Hrun by (vm_compute; reflexivity).
  split; [exact Hrun|]. split; [reflexivity|].
  exact (@train_stops_at_nan (Scripted.library [S754_nan])
           _ _ _ _ _ _ Hrun eq_refl).
Defined.

(** C1, as stated, fails for an infinite loss: [np.isnan] is false on
    it, the loop reports the batch and steps the optimizer again. *)
Lemma train_continues_after_infinite_loss :
  isfinite (S754_infinity false) = false
  ∧ (@train (Scripted.library [S754_infinity false; Scripted.zero])
            (replicate 257 Scripted.abc)
            [S754_infinity false; Scripted.zero]).2
    = [EvEval (Scripted.copies 128) Scripted.zero;
       EvPrint (MsgTestLoss Scripted.zero);
       EvStep (Scripted.copies 128) (S754_infinity false);
       EvPrint (MsgBatch 1 1 (S754_infinity false));
       EvStep (Scripted.copies 1) Scripted.zero;
       EvPrint (MsgBatch 1 2 Scripted.zero)]
  ∧ ¬ (∀ (L : Library) encoded lm pre b loss post,
         (@train L encoded lm).2 = pre ++ EvStep b loss :: post →
         isfinite loss = false →
         step_inputs post = []).
Proof.
  assert ((@train (Scripted.library [S754_infinity false; Scripted.zero])
                  (replicate 257 Scripted.abc)
                  [S754_infinity false; Scripted.zero]).2
          = [EvEval (Scripted.copies 128) Scripted.zero;
             EvPrint (MsgTestLoss Scripted.zero)]
            ++ EvStep (Scripted.copies 128) (S754_infinity false)
            :: [EvPrint (MsgBatch 1 1 (S754_infinity false));
                EvStep (Scripted.copies 1) Scripted.zero;
                EvPrint (MsgBatch 1 2 Scripted.zero)])
    as Hrun by (vm_compute; reflexivity).
  split_and!; [reflexivity|exact Hrun|].
  intros Hall. specialize (Hall _ _ _ _ _ _ _ Hrun eq_refl).
  vm_compute in Hall. discriminate Hall.
Qed.

(** C3, witness: a small configuration survives the round trip. *)
Lemma save_load_config_run :
  @pickle_load (Scripted.library [])
    (@pickle_dump (Scripted.library []) Scripted.abc_config
     ++ @Model_save (Scripted.library []) [S754_nan])
  = Some (Scripted.abc_config,
          @Model_save (Scripted.library []) [S754_nan])
  ∧ (@load_model (Scripted.library []) "model.bin"
       (@save_model (Scripted.library []) "model.bin"
          Scripted.abc_config [S754_nan] (World ∅ [])).2).1
    = inr (Scripted.abc_config, [S754_nan]).
Proof.
  assert (@pickle_load (Scripted.library [])
            (@pickle_dump (Scripted.library []) Scripted.abc_config
             ++ @Model_save (Scripted.library []) [S754_nan])
          = Some (Scripted.abc_config,
                  @Model_save (Scripted.library []) [S754_nan]))
    as Hpickle by (vm_compute; reflexivity).
  split; [exact Hpickle|].
  rewrite (@save_load_config (Scripted.library []) "model.bin"
             Scripted.abc_config [S754_nan] (World ∅ []) Hpickle).
  vm_compute. reflexivity.
Defined.

(** C4, witness: a first run trains on the corpus and saves; a second
    run on the files it left loads the model and trains nothing. *)
Lemma main_dispatch_run :
  (["lm.py"; "model.bin"; "corpus.txt"] : list string) !! 1
    = Some "model.bin"
  ∧ @main (Scripted.library [S754_nan])
      ["lm.py"; "model.bin"; "corpus.txt"] (Scripted.fresh 129)
    = (let '(c, lm, w') :=
         @trained_world (Scripted.library [S754_nan]) (Scripted.fresh 129)
           "model.bin" (Scripted.corpus 129) in
       (@infer (Scripted.library [S754_nan]) c lm;; ret (c, lm)) w')
  ∧ ∃ evs,
      (@main (Scripted.library []) ["lm.py"; "model.bin"]
         (Scripted.reopened
            (@main (Scripted.library [S754_nan])
               ["lm.py"; "model.bin"; "corpus.txt"]
               (Scripted.fresh 129)).2)).2
      = World
          (files (Scripted.reopened
                    (@main (Scripted.library [S754_nan])
                       ["lm.py"; "model.bin"; "corpus.txt"]
                       (Scripted.fresh 129)).2))
          (trace (Scripted.reopened
                    (@main (Scripted.library [S754_nan])
                       ["lm.py"; "model.bin"; "corpus.txt"]
                       (Scripted.fresh 129)).2) ++ evs)
      ∧ Forall (λ e, is_training e = false) evs.
Proof.
  split; [reflexivity|]. split.
  - exact (proj2 (@main_dispatch (Scripted.library [S754_nan])
                    ["lm.py"; "model.bin"; "corpus.txt"]
                    (Scripted.fresh 129) "model.bin" eq_refl)
             eq_refl "corpus.txt" (Scripted.corpus 129) eq_refl eq_refl).
  - assert (is_Some
              (files (Scripted.reopened
                        (@main (Scripted.library [S754_nan])
                           ["lm.py"; "model.bin"; "corpus.txt"]
                           (Scripted.fresh 129)).2) !! "model.bin"))
      as Hfound by (vm_compute; eexists; reflexivity).
    exact (proj1 (proj1 (@main_dispatch (Scripted.library [])
                           ["lm.py"; "model.bin"]
                           (Scripted.reopened
                              (@main (Scripted.library [S754_nan])
                                 ["lm.py"; "model.bin"; "corpus.txt"]
                                 (Scripted.fresh 129)).2)
                           "model.bin" eq_refl) Hfound)).
Defined.

(** C8, witness: the run whose only optimizer step returns NaN prints
    the abort message and still saves the model. *)
Lemma main_saves_after_nan_run :
  EvPrint (MsgNaN 1)
    ∈ trace (@main (Scripted.library [S754_nan])
               ["lm.py"; "model.bin"; "corpus.txt"] (Scripted.fresh 129)).2
  ∧ is_Some
      (files (@main (Scripted.library [S754_nan])
                ["lm.py"; "model.bin"; "corpus.txt"] (Scripted.fresh 129)).2
       !! "model.bin")
  ∧ EvPrint (MsgSaved "model.bin")
    ∈ trace (@main (Scripted.library [S754_nan])
               ["lm.py"; "model.bin"; "corpus.txt"] (Scripted.fresh 129)).2.
Proof.
  pose proof (@main_saves_after_training (Scripted.library [S754_nan])
                ["lm.py"; "model.bin"; "corpus.txt"] (Scripted.fresh 129)
                "model.bin" "corpus.txt" (Scripted.corpus 129)
                eq_refl eq_refl eq_refl eq_refl) as Hsaved.
  cbv beta iota zeta delta [encode_sequences Scripted.library Scripted.encode]
    in Hsaved.
  destruct Hsaved as [Hfile Hmsg].
  split_and!; [|eexists; exact Hfile|exact Hmsg].
  vm_compute. do 4 apply list_elem_of_further. apply list_elem_of_here.
Defined.

(** C9, witness: without a corpus argument, and with one that names no
    file, the run raises and leaves the world untouched. *)
Lemma main_needs_corpus_run :
  @main (Scripted.library []) ["lm.py"; "model.bin"] (Scripted.fresh 1)
  = (inl IndexError, Scripted.fresh 1)
  ∧ @main (Scripted.library []) ["lm.py"; "model.bin"; "missing.txt"]
      (Scripted.fresh 1)
    = (inl AssertionError, Scripted.fresh 1).
Proof.
  split.
  - apply (proj1 (@main_needs_corpus (Scripted.library [])
                    ["lm.py"; "model.bin"] (Scripted.fresh 1) "model.bin"
                    eq_refl eq_refl)).
    reflexivity.
  - apply (proj2 (@main_needs_corpus (Scripted.library [])
                    ["lm.py"; "model.bin"; "missing.txt"] (Scripted.fresh 1)
                    "model.bin" eq_refl eq_refl) "missing.txt");
      reflexivity.
Defined.

(** * Further properties of the script *)

(** ** The training loop, batch by batch *)

Section Epoch.
Context `{Library}.

(** One turn of the loop over the batches. *)
Lemma train_batches_cons i test batch rest lm n :
  train_batches i test (batch :: rest) lm n
  = let b := mask_sequences batch max_length in
    let report :=
      if n mod 10 =? 0
      then [EvEval test (cross_entropy lm test);
            EvPrint (MsgTestLoss (cross_entropy lm test))]
      else [] in
    let lm' := (optimizer_step lm b).1 in
    let loss := (optimizer_step lm b).2 in
    if isnan loss
    then (lm', n, report ++ [EvStep b loss; EvPrint (MsgNaN (i + 1))])
    else
      let r := train_batches i test rest lm' (n + 1) in
      (r.1.1, r.1.2,
       report ++ EvStep b loss
              :: EvPrint (MsgBatch (i + 1) (n + 1) loss) :: r.2).
Proof.
  cbn [train_batches].
  destruct (optimizer_step lm (mask_sequences batch max_length))
    as [lm' loss]. cbn [fst snd].
  destruct (isnan loss); [done|].
  by destruct (train_batches i test rest lm' (n + 1)) as [[lm'' n'] evs].
Qed.

Lemma train_batches_no_nan i test batches lm n :
  (∀ b loss, EvStep b loss ∈ (train_batches i test batches lm n).2 →
             isnan loss = false) →
  step_inputs (train_batches i test batches lm n).2
    = (λ batch, mask_sequences batch max_length) <$> batches
  ∧ batch_numbers (train_batches i test batches lm n).2
    = seq (n + 1) (length batches)
  ∧ (∀ k, EvPrint (MsgNaN k) ∉ (train_batches i test batches lm n).2).
Proof.
  revert lm n. induction batches as [|batch rest IH]; intros lm n Hok.
  { split_and!; [done..|]. intros k. cbn. apply not_elem_of_nil. }
  revert Hok. rewrite train_batches_cons. cbn zeta.
  set (b := mask_sequences batch max_length).
  set (lm' := (optimizer_step lm b).1).
  set (loss := (optimizer_step lm b).2).
  destruct (isnan loss) eqn:Hnan; intros Hok.
  { assert (isnan loss = false); [|congruence].
    apply (Hok b). cbn [snd].
    rewrite elem_of_app, elem_of_cons. auto. }
  cbn [fst snd] in Hok |- *.
  destruct (IH lm' (n + 1)) as (Hsteps & Hnumbers & Hquiet).
  { intros b' loss' Hin. apply (Hok b').
    rewrite elem_of_app, !elem_of_cons. auto. }
  replace (n + 1 + 1) with (S (n + 1)) in Hnumbers by lia.
  unfold step_inputs, batch_numbers in *.
  destruct (n mod 10 =? 0); cbn;
    rewrite ?Hsteps, ?Hnumbers; (split_and!; [done..|]);
    intros k; rewrite !elem_of_cons; intros Hin;
    repeat (destruct Hin as [Hin|Hin]; [discriminate Hin|]);
    by apply (Hquiet k).
Qed.

Lemma train_batches_params i test batches lm n :
  let r := train_batches i test batches lm n in
  length (step_inputs r.2) ≤ length batches
  ∧ r.1.1 = run_steps lm (take (length (step_inputs r.2)) batches).
Proof.
  revert lm n. induction batches as [|batch rest IH]; intros lm n.
  { cbn. split; [lia|done]. }
  cbn zeta. rewrite train_batches_cons. cbn zeta.
  set (b := mask_sequences batch max_length).
  set (lm' := (optimizer_step lm b).1).
  set (loss := (optimizer_step lm b).2).
  specialize (IH lm' (n + 1)). cbn zeta in IH. destruct IH as [Hle Hrun].
  unfold step_inputs in *.
  destruct (isnan loss), (n mod 10 =? 0); cbn [fst snd]; cbn;
    (split; [lia|]); first [done | by rewrite Hrun].
Qed.



Lemma train_result encoded lm :
  train encoded lm
  = let r := train_batches 0
               (mask_sequences (take test_size encoded) max_length)
               (iterate_batches (drop test_size encoded) batch_size) lm 0 in
    (r.1.1, r.2).
Proof.
  unfold train. cbn [seq train_epochs].
  destruct (train_batches _ _ _ _ _) as [[lm' n] evs]. cbn.
  by rewrite app_nil_r.
Qed.

(** X1: a training run in which no optimizer step returns NaN steps
    the optimizer once on every batch of the training set, in the order
    [iterate_batches] yields them; its progress lines are numbered 1, 2,
    ... without a gap, and no abort message is printed. *)
Theorem train_steps_every_batch encoded lm :
  (∀ b loss, EvStep b loss ∈ (train encoded lm).2 → isnan loss = false) →
  step_inputs (train encoded lm).2
    = (λ batch, mask_sequences batch max_length)
        <$> iterate_batches (drop test_size encoded) batch_size
  ∧ batch_numbers (train encoded lm).2
    = seq 1 (length (iterate_batches (drop test_size encoded) batch_size))
  ∧ (∀ k, EvPrint (MsgNaN k) ∉ (train encoded lm).2).
Proof.
  rewrite train_result. cbn zeta. cbn [snd]. intros Hok.
  by apply train_batches_no_nan in Hok.
Qed.

(** X2: the parameters a training run ends with are those obtained by
    stepping the optimizer through the batches it was stepped on, the
    first [k] of the training batches, [k] being the number of steps taken.
    The update of a step that returned NaN is therefore part of them. *)
Theorem train_returns_stepped_params encoded lm :
  let batches := iterate_batches (drop test_size encoded) batch_size in
  let k := length (step_inputs (train encoded lm).2) in
  k ≤ length batches
  ∧ (train encoded lm).1 = run_steps lm (take k batches).
Proof.
  intros batches k. subst k. rewrite train_result. cbn zeta. cbn [fst snd].
  apply train_batches_params.
Qed.


End Epoch.

(** X1, witness: 257 sentences make two training batches, and both steps
    return a finite loss. *)
Lemma train_steps_every_batch_run :
  (∀ b loss,
     EvStep b loss
       ∈ (@train (Scripted.library [Scripted.zero; Scripted.zero])
            (replicate 257 Scripted.abc) [Scripted.zero; Scripted.zero]).2 →
     isnan loss = false)
  ∧ step_inputs
      (@train (Scripted.library [Scripted.zero; Scripted.zero])
         (replicate 257 Scripted.abc) [Scripted.zero; Scripted.zero]).2
    = [Scripted.copies 128; Scripted.copies 1]
  ∧ batch_numbers
      (@train (Scripted.library [Scripted.zero; Scripted.zero])
         (replicate 257 Scripted.abc) [Scripted.zero; Scripted.zero]).2
    = [1; 2].
Proof.
  assert (∀ b loss,
     EvStep b loss
       ∈ (@train (Scripted.library [Scripted.zero; Scripted.zero])
            (replicate 257 Scripted.abc) [Scripted.zero; Scripted.zero]).2 →
     isnan loss = false) as Hok.
  { assert ((@train (Scripted.library [Scripted.zero; Scripted.zero])
               (replicate 257 Scripted.abc)
               [Scripted.zero; Scripted.zero]).2
            = [EvEval (Scripted.copies 128) Scripted.zero;
               EvPrint (MsgTestLoss Scripted.zero);
               EvStep (Scripted.copies 128) Scripted.zero;
               EvPrint (MsgBatch 1 1 Scripted.zero);
               EvStep (Scripted.copies 1) Scripted.zero;
               EvPrint (MsgBatch 1 2 Scripted.zero)]) as ->
      by (vm_compute; reflexivity).
    intros b loss Hin.
    repeat (apply elem_of_cons in Hin as [Hin|Hin];
            [try discriminate Hin; by injection Hin as _ ->|]).
    by apply elem_of_nil in Hin. }
  split; [exact Hok|].
  pose proof (@train_steps_every_batch
                (Scripted.library [Scripted.zero; Scripted.zero])
                (replicate 257 Scripted.abc) [Scripted.zero; Scripted.zero]
                Hok) as (Hsteps & Hnumbers & _).
  split.
  - rewrite Hsteps. vm_compute. reflexivity.
  - rewrite Hnumbers. vm_compute. reflexivity.
Defined.

(** ** Stripped sentences *)

Lemma lstrip_spec (s : pystr) :
  ∃ pre, s = pre ++ lstrip s
         ∧ Forall (λ c, isspace c = true) pre
         ∧ (∀ c, head (lstrip s) = Some c → isspace c = false).
Proof.
  induction s as [|c s (pre & Hs & Hpre & Hhead)].
  { exists []. by split_and!. }
  cbn [lstrip]. destruct (isspace c) eqn:Hc.
  - exists (c :: pre). split_and!; [by rewrite Hs at 1|by constructor|done].
  - exists []. split_and!; [done|constructor|]. by intros ? [= <-].
Qed.

Lemma rstrip_spec (s : pystr) :
  ∃ suf, s = rstrip s ++ suf
         ∧ Forall (λ c, isspace c = true) suf
         ∧ (∀ c, last (rstrip s) = Some c → isspace c = false).
Proof.
  unfold rstrip.
  destruct (lstrip_spec (reverse s)) as (pre & Hs & Hpre & Hhead).
  exists (reverse pre). split_and!.
  - rewrite <- reverse_app, <- Hs. by rewrite reverse_involutive.
  - by apply Forall_reverse.
  - intros c. rewrite last_reverse. apply Hhead.
Qed.

Lemma strip_spec (s : pystr) :
  ∃ pre suf, s = pre ++ strip s ++ suf
             ∧ Forall (λ c, isspace c = true) pre
             ∧ Forall (λ c, isspace c = true) suf
             ∧ (∀ c, head (strip s) = Some c → isspace c = false)
             ∧ (∀ c, last (strip s) = Some c → isspace c = false).
Proof.
  unfold strip.
  destruct (lstrip_spec s) as (pre & Hs & Hpre & Hhead).
  destruct (rstrip_spec (lstrip s)) as (suf & Ht & Hsuf & Hlast).
  exists pre, suf. split_and!; [by rewrite <- Ht|done..| |done].
  intros c Hc. apply Hhead. rewrite Ht.
  apply head_Some in Hc as [rest ->]. done.
Qed.

Lemma lstrip_blank (s : pystr) :
  Forall (λ c, isspace c = true) s → lstrip s = [].
Proof. induction 1 as [|c s Hc _ IH]; [done|]. cbn. by rewrite Hc. Qed.

(** X4: every sentence of the training data is a contiguous part of a
    line of raw length at least 10, from which only whitespace was cut
    off at either end; the sentence itself neither starts nor ends with
    whitespace. *)
Theorem read_sents_stripped (lines : list pystr) :
  Forall (λ s,
    ∃ line pre suf,
      line ∈ lines ∧ 10 ≤ length line ∧ line = pre ++ s ++ suf
      ∧ Forall (λ c, isspace c = true) pre
      ∧ Forall (λ c, isspace c = true) suf
      ∧ (∀ c, head s = Some c → isspace c = false)
      ∧ (∀ c, last s = Some c → isspace c = false))
    (read_sents lines).
Proof.
  rewrite read_sents_filter. apply Forall_fmap, Forall_forall.
  intros line [Hlen Hin]%list_elem_of_filter. cbn.
  destruct (strip_spec line) as (pre & suf & Hline & Hpre & Hsuf & Hh & Hl).
  exists line, pre, suf. by split_and!.
Qed.

(** X5: a line of at least 10 characters that are all whitespace is not
    dropped: it enters the training data as the empty sentence. *)
Theorem read_sents_blank_line (before after : list pystr) (line : pystr) :
  10 ≤ length line →
  Forall (λ c, isspace c = true) line →
  read_sents (before ++ line :: after)
  = read_sents before ++ [] :: read_sents after.
Proof.
  intros Hlen Hblank. rewrite !read_sents_filter.
  rewrite filter_app, filter_cons, decide_True by done.
  rewrite fmap_app, fmap_cons. do 2 f_equal.
  unfold strip, rstrip. rewrite (lstrip_blank line) by done.
  by rewrite reverse_nil.
Qed.

(** X5, witness: ten spaces and a newline between two short lines. *)
Lemma read_sents_blank_line_run :
  10 ≤ length (str "          
")
  ∧ Forall (λ c, isspace c = true) (str "          
")
  ∧ read_sents ([str "one
"] ++ str "          
" :: [str "two
"]) = read_sents [str "one
"] ++ [] :: read_sents [str "two
"].
Proof.
  assert (10 ≤ length (str "          
")) as Hlen by (vm_compute; lia).
  assert (Forall (λ c, isspace c = true) (str "          
")) as Hblank by (repeat constructor).
  split_and!; [done..|].
  exact (read_sents_blank_line _ _ _ Hlen Hblank).
Defined.

(** ** Runs of the script *)

Section Runs.
Context `{Library}.

Lemma bind_ret_world {A B} (m : M A) (x : B) w :
  ((m;; ret x) w).2 = (m w).2.
Proof. unfold bind, ret. by destruct (m w) as [[e|a] w']. Qed.

Lemma infer_files c lm w : files (infer c lm w).2 = files w.
Proof. destruct (infer_run c lm w) as (evs & -> & _). done. Qed.

Lemma infer_cases c lm w :
  match index c !! str "<S>", index c !! str "</S>" with
  | Some start, Some stop =>
      infer c lm w
      = (inr tt,
         World (files w)
               (trace w ++ EvSearch start stop 72 72
                  :: ((λ r, EvPrint (MsgPrediction r.1 r.2))
                        <$> beam lm 1 start stop 72 72)))
  | _, _ => infer c lm w = (inl KeyError, w)
  end.
Proof.
  unfold infer, LanguageModel_search, bind, dict_get, tell, ret, raise.
  destruct (index c !! str "<S>") as [start|],
    (index c !! str "</S>") as [stop|]; cbn; [|done..].
  by rewrite <- app_assoc.
Qed.

Lemma train_model_cases argv model w :
  (argv !! 2 = None ∧ train_model argv model w = (inl IndexError, w))
  ∨ (∃ corpus, argv !! 2 = Some corpus ∧ files w !! corpus = None
               ∧ train_model argv model w = (inl AssertionError, w))
  ∨ (∃ corpus text,
       argv !! 2 = Some corpus ∧ files w !! corpus = Some text
       ∧ train_model argv model w
         = let '(c, lm, w') := trained_world w model text in
           (inr (c, lm), w')).
Proof.
  destruct (argv !! 2) as [corpus|] eqn:Harg.
  2: { left. split; [done|].
       unfold train_model, bind, argv_get, raise. by rewrite Harg. }
  right. destruct (files w !! corpus) as [text|] eqn:Hfile.
  - right. exists corpus, text. split_and!; [done..|].
    by apply (train_model_run _ _ _ corpus).
  - left. exists corpus. split_and!; [done..|].
    unfold train_model, bind, argv_get, path_exists, assert, ret, raise.
    rewrite Harg. cbn. rewrite Hfile.
    rewrite bool_decide_eq_false_2; [done|]. by intros [? [=]].
Qed.

Lemma trained_world_files w model text path :
  path ≠ model →
  files (trained_world w model text).2 !! path = files w !! path.
Proof.
  intros Hne. unfold trained_world.
  destruct (encode_sequences (read_sents (text_lines text)))
    as [[symbols index] encoded].
  destruct (train encoded (LanguageModel_new (new_config symbols index)))
    as [lm evs]. cbn. by rewrite lookup_insert_ne.
Qed.

(** X6: the only file a run can create or change is the one named by
    its first argument; every other path, the corpus included, holds
    afterwards what it held before, however the run ends. *)
Theorem main_touches_only_model_file argv w path :
  argv !! 1 ≠ Some path →
  files (main argv w).2 !! path = files w !! path.
Proof.
  intros Hpath. destruct (argv !! 1) as [model|] eqn:Harg.
  2: { unfold main, bind, argv_get, raise. by rewrite Harg. }
  assert (path ≠ model) as Hne by congruence.
  destruct (files w !! model) as [content|] eqn:Hfile.
  - rewrite (main_found _ _ model) by eauto. unfold bind at 1.
    destruct (load_model_quiet model w) as (evs & Hw & _).
    destruct (load_model model w) as [[e|[c lm]] w1]; cbn in Hw; subst w1;
      [done|].
    by rewrite bind_ret_world, infer_files.
  - rewrite (main_missing _ _ model) by done. unfold bind at 1.
    destruct (train_model_cases argv model w)
      as [[_ ->]|[(corpus & _ & _ & ->)|(corpus & text & _ & _ & ->)]];
      [done..|].
    pose proof (trained_world_files w model text path Hne) as Hframe.
    destruct (trained_world w model text) as [[c lm] w1]. cbn in Hframe.
    by rewrite bind_ret_world, infer_files.
Qed.

(** X7: a model file that cannot be unpickled makes the run raise at
    once, with nothing built or printed; one whose configuration
    unpickles but whose parameters cannot be loaded makes it raise after
    the model was built from that configuration, before the load message
    and before any search. *)
Theorem main_load_failures argv w model content :
  argv !! 1 = Some model →
  files w !! model = Some content →
  (pickle_load content = None →
     main argv w = (inl UnpicklingError, w))
  ∧ (∀ c rest,
       pickle_load content = Some (c, rest) →
       Model_load (LanguageModel_new c) rest = None →
       main argv w
       = (inl LoadError, World (files w) (trace w ++ [EvNew c]))).
Proof.
  intros Harg Hfile. rewrite (main_found _ _ model) by eauto.
  unfold load_model, bind, open_read, from_option, tell, print, ret, raise.
  rewrite Hfile. split.
  - by intros ->.
  - intros c rest -> Hlm. cbn. by rewrite Hlm.
Qed.

Lemma trained_world_spec w model text :
  let tw := trained_world w model text in
  let encoded := (encode_sequences (read_sents (text_lines text))).2 in
  files tw.2 = <[model := pickle_dump tw.1.1 ++ Model_save tw.1.2]> (files w)
  ∧ tw.1.2 = (train encoded (LanguageModel_new tw.1.1)).1
  ∧ trace tw.2
    = trace w ++ EvNew tw.1.1
        :: (train encoded (LanguageModel_new tw.1.1)).2
        ++ [EvPrint (MsgSaved model)].
Proof.
  unfold trained_world.
  destruct (encode_sequences (read_sents (text_lines text)))
    as [[symbols index] encoded]. cbn [snd].
  destruct (train encoded (LanguageModel_new (new_config symbols index)))
    as [lm evs] eqn:Htrain.
  cbn. by rewrite Htrain.
Qed.

Lemma main_trains_world argv w model corpus text :
  argv !! 1 = Some model →
  files w !! model = None →
  argv !! 2 = Some corpus →
  files w !! corpus = Some text →
  let tw := trained_world w model text in
  main argv w = (infer tw.1.1 tw.1.2;; ret (tw.1.1, tw.1.2)) tw.2.
Proof.
  intros Harg Hfile Harg2 Hcorpus.
  rewrite (main_trains _ _ _ _ _ Harg Hfile Harg2 Hcorpus).
  by destruct (trained_world w model text) as [[c lm] w'].
Qed.

(** X8: when the vocabulary built from the corpus has no entry for the
    start or the stop marker, a training run raises KeyError, but only
    after the model file was written and reported. *)
Theorem main_saves_before_key_error argv w model corpus text :
  argv !! 1 = Some model →
  files w !! model = None →
  argv !! 2 = Some corpus →
  files w !! corpus = Some text →
  let tw := trained_world w model text in
  index tw.1.1 !! str "<S>" = None ∨ index tw.1.1 !! str "</S>" = None →
  main argv w = (inl KeyError, tw.2)
  ∧ files tw.2 !! model = Some (pickle_dump tw.1.1 ++ Model_save tw.1.2)
  ∧ EvPrint (MsgSaved model) ∈ trace tw.2.
Proof.
  intros Harg Hfile Harg2 Hcorpus tw Hkey.
  rewrite (main_trains_world _ _ _ _ _ Harg Hfile Harg2 Hcorpus). fold tw.
  destruct (trained_world_spec w model text) as (Hfiles & _ & Htrace).
  fold tw in Hfiles, Htrace. split_and!.
  - pose proof (infer_cases tw.1.1 tw.1.2 tw.2) as Hinfer.
    unfold bind.
    destruct Hkey as [Hkey|Hkey]; rewrite Hkey in Hinfer.
    + by rewrite Hinfer.
    + destruct (index tw.1.1 !! str "<S>"); by rewrite Hinfer.
  - rewrite Hfiles. apply lookup_insert_eq.
  - rewrite Htrace, elem_of_app, elem_of_cons, elem_of_app,
      list_elem_of_singleton. tauto.
Qed.

(** X9: a run that finds the model file left by a training run builds
    its model from the configuration of that training run, loads the
    parameters, and goes on to inference, provided pickle and
    [Model.load] read back what was written. *)
Theorem rerun_loads_trained_model argv argv' w model corpus text lm' :
  argv !! 1 = Some model →
  files w !! model = None →
  argv !! 2 = Some corpus →
  files w !! corpus = Some text →
  argv' !! 1 = Some model →
  let tw := trained_world w model text in
  pickle_load (pickle_dump tw.1.1 ++ Model_save tw.1.2)
    = Some (tw.1.1, Model_save tw.1.2) →
  Model_load (LanguageModel_new tw.1.1) (Model_save tw.1.2) = Some lm' →
  main argv' (World (files (main argv w).2) [])
  = (infer tw.1.1 lm';; ret (tw.1.1, lm'))
      (World (files (main argv w).2)
             [EvNew tw.1.1; EvPrint (MsgLoaded model)]).
Proof.
  intros Harg Hfile Harg2 Hcorpus Harg' tw Hpickle Hload.
  assert (files (main argv w).2 !! model
          = Some (pickle_dump tw.1.1 ++ Model_save tw.1.2)) as Hsaved.
  { rewrite (main_trains_world _ _ _ _ _ Harg Hfile Harg2 Hcorpus). fold tw.
    rewrite bind_ret_world, infer_files.
    destruct (trained_world_spec w model text) as (Hfiles & _ & _).
    fold tw in Hfiles. rewrite Hfiles. apply lookup_insert_eq. }
  rewrite (main_found _ _ model) by (cbn; eauto).
  unfold bind at 1.
  by rewrite (load_model_run (World (files (main argv w).2) [])
                _ _ _ _ _ Hsaved Hpickle Hload).
Qed.

(** X10: a corpus of at most [test_size] sentences leaves nothing to
    train on.  If the batcher yields no batch for an empty training set,
    the run steps no optimizer and evaluates no loss, and the file it
    saves holds the freshly initialised parameters. *)
Theorem main_small_corpus argv w model corpus text :
  argv !! 1 = Some model →
  files w !! model = None →
  argv !! 2 = Some corpus →
  files w !! corpus = Some text →
  length (encode_sequences (read_sents (text_lines text))).2 ≤ test_size →
  iterate_batches [] batch_size = [] →
  let c := (trained_world w model text).1.1 in
  files (main argv w).2 !! model
    = Some (pickle_dump c ++ Model_save (LanguageModel_new c))
  ∧ ∃ evs, trace (main argv w).2 = trace w ++ evs
           ∧ Forall (λ e, is_training e = false) evs.
Proof.
  intros Harg Hfile Harg2 Hcorpus Hsmall Hnone c.
  rewrite (main_trains_world _ _ _ _ _ Harg Hfile Harg2 Hcorpus).
  destruct (trained_world_spec w model text) as (Hfiles & Hlm & Htrace).
  fold c in Hfiles, Hlm, Htrace |- *.
  set (encoded := (encode_sequences (read_sents (text_lines text))).2) in *.
  assert (train encoded (LanguageModel_new c) = (LanguageModel_new c, []))
    as Htrain.
  { rewrite train_result. rewrite (drop_ge encoded) by done.
    by rewrite Hnone. }
  rewrite Htrain in Hlm, Htrace. cbn [fst snd] in Hlm, Htrace.
  rewrite bind_ret_world. split.
  - rewrite infer_files, Hfiles, Hlm. apply lookup_insert_eq.
  - destruct (infer_run c (trained_world w model text).1.2
                (trained_world w model text).2) as (evs & -> & Hevs).
    cbn [trace]. rewrite Htrace.
    exists ([EvNew c; EvPrint (MsgSaved model)] ++ evs).
    split; [by rewrite <- app_assoc|].
    apply Forall_app. split; [by repeat constructor|done].
Qed.

(** X11: a run that returns normally was given a model path, leaves a
    file at that path, built its model from the configuration it returns,
    and ended with one beam search for a single sentence, from the start
    marker to the stop marker of that configuration with both length
    limits 72, followed by one line for each result. *)
Theorem main_success argv w c lm w' :
  main argv w = (inr (c, lm), w') →
  ∃ model start stop pre,
    argv !! 1 = Some model
    ∧ is_Some (files w' !! model)
    ∧ index c !! str "<S>" = Some start
    ∧ index c !! str "</S>" = Some stop
    ∧ EvNew c ∈ pre
    ∧ trace w'
      = pre ++ EvSearch start stop 72 72
          :: ((λ r, EvPrint (MsgPrediction r.1 r.2))
                <$> beam lm 1 start stop 72 72).
Proof.
  intros Hmain. destruct (argv !! 1) as [model|] eqn:Harg.
  2: { unfold main, bind, argv_get, raise in Hmain.
       by rewrite Harg in Hmain. }
  assert (∀ c0 lm0 w0,
    (infer c0 lm0;; ret (c0, lm0)) w0 = (inr (c, lm), w') →
    is_Some (files w0 !! model) → EvNew c0 ∈ trace w0 →
    ∃ model0 start stop pre,
      Some model = Some model0
      ∧ is_Some (files w' !! model0)
      ∧ index c !! str "<S>" = Some start
      ∧ index c !! str "</S>" = Some stop
      ∧ EvNew c ∈ pre
      ∧ trace w'
        = pre ++ EvSearch start stop 72 72
            :: ((λ r, EvPrint (MsgPrediction r.1 r.2))
                  <$> beam lm 1 start stop 72 72)) as Hend.
  { intros c0 lm0 w0 Hrun Hfile Hnew.
    pose proof (infer_cases c0 lm0 w0) as Hinfer. unfold bind, ret in Hrun.
    destruct (index c0 !! str "<S>") as [start|] eqn:Hstart,
      (index c0 !! str "</S>") as [stop|] eqn:Hstop;
      rewrite Hinfer in Hrun; try discriminate Hrun.
    injection Hrun as <- <- <-.
    exists model, start, stop, (trace w0). by split_and!. }
  destruct (files w !! model) as [content|] eqn:Hfile.
  - rewrite (main_found _ _ model) in Hmain by eauto.
    unfold bind at 1 in Hmain.
    destruct (load_model model w) as [[e|[c0 lm0]] w0] eqn:Hload;
      [discriminate Hmain|].
    apply (Hend c0 lm0 w0 Hmain).
    + destruct (load_model_quiet model w) as (evs & Hw & _).
      rewrite Hload in Hw. cbn in Hw. subst w0. cbn. rewrite Hfile. eauto.
    + revert Hload.
      unfold load_model, bind, open_read, from_option, tell, print, ret,
        raise.
      rewrite Hfile. destruct (pickle_load content) as [[c1 rest]|];
        cbn; [|discriminate].
      destruct (Model_load (LanguageModel_new c1) rest); cbn; [|discriminate].
      intros [= <- <- <-]. cbn.
      rewrite !elem_of_app, list_elem_of_singleton. tauto.
  - rewrite (main_missing _ _ model) in Hmain by done.
    unfold bind at 1 in Hmain.
    destruct (train_model_cases argv model w)
      as [[_ Ht]|[(corpus & _ & _ & Ht)|(corpus & text & _ & _ & Ht)]];
      rewrite Ht in Hmain; [discriminate Hmain..|].
    destruct (trained_world_spec w model text) as (Hfiles & _ & Htrace).
    destruct (trained_world w model text) as [[c0 lm0] w0].
    cbn [fst snd] in Hfiles, Htrace.
    apply (Hend c0 lm0 w0 Hmain).
    + rewrite Hfiles, lookup_insert_eq. eauto.
    + rewrite Htrace, elem_of_app, elem_of_cons. tauto.
Qed.

End Runs.

(** X6, witness: the corpus is intact after a training run. *)
Lemma main_touches_only_model_file_run :
  (["lm.py"; "model.bin"; "corpus.txt"] : list string) !! 1
    ≠ Some "corpus.txt"
  ∧ files (@main (Scripted.library [S754_nan])
             ["lm.py"; "model.bin"; "corpus.txt"] (Scripted.fresh 129)).2
    !! "corpus.txt"
    = files (Scripted.fresh 129) !! "corpus.txt".
Proof.
  assert ((["lm.py"; "model.bin"; "corpus.txt"] : list string) !! 1
          ≠ Some "corpus.txt") as Hne by discriminate.
  split; [exact Hne|].
  exact (@main_touches_only_model_file (Scripted.library [S754_nan])
           _ (Scripted.fresh 129) _ Hne).
Defined.

(** X7, witness: an empty model file, and one that ends after the
    configuration. *)
Lemma main_load_failures_run :
  @main (Scripted.library []) ["lm.py"; "model.bin"]
    (World {[ "model.bin" := [] ]} [])
  = (inl UnpicklingError, World {[ "model.bin" := [] ]} [])
  ∧ @main (Scripted.library []) ["lm.py"; "model.bin"]
      (World {[ "model.bin" :=
                  Scripted.enc Scripted.config_codec Scripted.abc_config ]}
             [])
    = (inl LoadError,
       World {[ "model.bin" :=
                  Scripted.enc Scripted.config_codec Scripted.abc_config ]}
             ([] ++ [EvNew Scripted.abc_config])).
Proof.
  split.
  - assert (files (World {[ "model.bin" := [] ]} []) !! "model.bin"
            = Some []) as Hfile by (vm_compute; reflexivity).
    apply (proj1 (@main_load_failures (Scripted.library [])
                    ["lm.py"; "model.bin"] _ "model.bin" [] eq_refl Hfile)).
    reflexivity.
  - assert (files (World {[ "model.bin" :=
                     Scripted.enc Scripted.config_codec
                       Scripted.abc_config ]} []) !! "model.bin"
            = Some (Scripted.enc Scripted.config_codec Scripted.abc_config))
      as Hfile by (vm_compute; reflexivity).
    apply (proj2 (@main_load_failures (Scripted.library [])
                    ["lm.py"; "model.bin"] _ "model.bin" _ eq_refl Hfile)
             Scripted.abc_config []);
      vm_compute; reflexivity.
Defined.

(** X8, witness: with an encoder that knows no symbol, the run saves
    the model and then fails to find the start marker. *)
Lemma main_saves_before_key_error_run :
  index (@trained_world Scripted.mute (Scripted.fresh 1) "model.bin"
           (Scripted.corpus 1)).1.1 !! str "<S>" = None
  ∧ @main Scripted.mute ["lm.py"; "model.bin"; "corpus.txt"]
      (Scripted.fresh 1)
    = (inl KeyError,
       (@trained_world Scripted.mute (Scripted.fresh 1) "model.bin"
          (Scripted.corpus 1)).2).
Proof.
  assert (index (@trained_world Scripted.mute (Scripted.fresh 1) "model.bin"
                   (Scripted.corpus 1)).1.1 !! str "<S>" = None) as Hkey
    by (vm_compute; reflexivity).
  split; [exact Hkey|].
  exact (proj1 (@main_saves_before_key_error Scripted.mute
                  ["lm.py"; "model.bin"; "corpus.txt"] (Scripted.fresh 1)
                  "model.bin" "corpus.txt" (Scripted.corpus 1)
                  eq_refl eq_refl eq_refl eq_refl (or_introl Hkey))).
Defined.

(** X9, witness: the run after the training run of 129 sentences. *)
Lemma rerun_loads_trained_model_run :
  @pickle_load (Scripted.library [S754_nan])
    (@pickle_dump (Scripted.library [S754_nan])
       (@trained_world (Scripted.library [S754_nan]) (Scripted.fresh 129)
          "model.bin" (Scripted.corpus 129)).1.1
     ++ @Model_save (Scripted.library [S754_nan])
          (@trained_world (Scripted.library [S754_nan]) (Scripted.fresh 129)
             "model.bin" (Scripted.corpus 129)).1.2)
  = Some ((@trained_world (Scripted.library [S754_nan]) (Scripted.fresh 129)
             "model.bin" (Scripted.corpus 129)).1.1,
          @Model_save (Scripted.library [S754_nan])
            (@trained_world (Scripted.library [S754_nan])
               (Scripted.fresh 129) "model.bin" (Scripted.corpus 129)).1.2)
  ∧ @main (Scripted.library [S754_nan]) ["lm.py"; "model.bin"]
      (World (files (@main (Scripted.library [S754_nan])
                       ["lm.py"; "model.bin"; "corpus.txt"]
                       (Scripted.fresh 129)).2) [])
    = (@infer (Scripted.library [S754_nan])
         (@trained_world (Scripted.library [S754_nan]) (Scripted.fresh 129)
            "model.bin" (Scripted.corpus 129)).1.1 [];;
       ret ((@trained_world (Scripted.library [S754_nan])
               (Scripted.fresh 129) "model.bin" (Scripted.corpus 129)).1.1,
            []))
        (World (files (@main (Scripted.library [S754_nan])
                         ["lm.py"; "model.bin"; "corpus.txt"]
                         (Scripted.fresh 129)).2)
               [EvNew (@trained_world (Scripted.library [S754_nan])
                         (Scripted.fresh 129) "model.bin"
                         (Scripted.corpus 129)).1.1;
                EvPrint (MsgLoaded "model.bin")]).
Proof.
  assert (@pickle_load (Scripted.library [S754_nan])
    (@pickle_dump (Scripted.library [S754_nan])
       (@trained_world (Scripted.library [S754_nan]) (Scripted.fresh 129)
          "model.bin" (Scripted.corpus 129)).1.1
     ++ @Model_save (Scripted.library [S754_nan])
          (@trained_world (Scripted.library [S754_nan]) (Scripted.fresh 129)
             "model.bin" (Scripted.corpus 129)).1.2)
  = Some ((@trained_world (Scripted.library [S754_nan]) (Scripted.fresh 129)
             "model.bin" (Scripted.corpus 129)).1.1,
          @Model_save (Scripted.library [S754_nan])
            (@trained_world (Scripted.library [S754_nan])
               (Scripted.fresh 129) "model.bin" (Scripted.corpus 129)).1.2))
    as Hpickle by (vm_compute; reflexivity).
  assert (@Model_load (Scripted.library [S754_nan])
            (@LanguageModel_new (Scripted.library [S754_nan])
               (@trained_world (Scripted.library [S754_nan])
                  (Scripted.fresh 129) "model.bin"
                  (Scripted.corpus 129)).1.1)
            (@Model_save (Scripted.library [S754_nan])
               (@trained_world (Scripted.library [S754_nan])
                  (Scripted.fresh 129) "model.bin"
                  (Scripted.corpus 129)).1.2)
          = Some []) as Hload by (vm_compute; reflexivity).
  split; [exact Hpickle|].
  exact (@rerun_loads_trained_model (Scripted.library [S754_nan])
           ["lm.py"; "model.bin"; "corpus.txt"] ["lm.py"; "model.bin"]
           (Scripted.fresh 129) "model.bin" "corpus.txt"
           (Scripted.corpus 129) []
           eq_refl eq_refl eq_refl eq_refl eq_refl Hpickle Hload).
Defined.

(** X10, witness: a corpus of three sentences. *)
Lemma main_small_corpus_run :
  length (@encode_sequences (Scripted.library [])
            (read_sents (@text_lines (Scripted.library [])
                           (Scripted.corpus 3)))).2 ≤ test_size
  ∧ @iterate_batches (Scripted.library []) [] batch_size = []
  ∧ files (@main (Scripted.library [])
             ["lm.py"; "model.bin"; "corpus.txt"] (Scripted.fresh 3)).2
    !! "model.bin"
    = Some (@pickle_dump (Scripted.library [])
              (@trained_world (Scripted.library []) (Scripted.fresh 3)
                 "model.bin" (Scripted.corpus 3)).1.1
            ++ @Model_save (Scripted.library [])
                 (@LanguageModel_new (Scripted.library [])
                    (@trained_world (Scripted.library []) (Scripted.fresh 3)
                       "model.bin" (Scripted.corpus 3)).1.1)).
Proof.
  assert (length (@encode_sequences (Scripted.library [])
                    (read_sents (@text_lines (Scripted.library [])
                                   (Scripted.corpus 3)))).2 ≤ test_size)
    as Hsmall by (vm_compute; lia).
  split_and!; [exact Hsmall|reflexivity|].
  exact (proj1 (@main_small_corpus (Scripted.library [])
                  ["lm.py"; "model.bin"; "corpus.txt"] (Scripted.fresh 3)
                  "model.bin" "corpus.txt" (Scripted.corpus 3)
                  eq_refl eq_refl eq_refl eq_refl Hsmall eq_refl)).
Defined.

(** X11, witness: the training run of 129 sentences returns normally. *)
Lemma main_success_run :
  ∃ model start stop pre,
    (["lm.py"; "model.bin"; "corpus.txt"] : list string) !! 1 = Some model
    ∧ is_Some (files (@main (Scripted.library [S754_nan])
                        ["lm.py"; "model.bin"; "corpus.txt"]
                        (Scripted.fresh 129)).2 !! model)
    ∧ index (@trained_world (Scripted.library [S754_nan])
               (Scripted.fresh 129) "model.bin" (Scripted.corpus 129)).1.1
        !! str "<S>" = Some start
    ∧ index (@trained_world (Scripted.library [S754_nan])
               (Scripted.fresh 129) "model.bin" (Scripted.corpus 129)).1.1
        !! str "</S>" = Some stop
    ∧ EvNew (@trained_world (Scripted.library [S754_nan])
               (Scripted.fresh 129) "model.bin" (Scripted.corpus 129)).1.1
      ∈ pre
    ∧ trace (@main (Scripted.library [S754_nan])
               ["lm.py"; "model.bin"; "corpus.txt"] (Scripted.fresh 129)).2
      = pre ++ EvSearch start stop 72 72
          :: ((λ r, EvPrint (MsgPrediction r.1 r.2))
                <$> @beam (Scripted.library [S754_nan]) [] 1 start stop
                      72 72).
Proof.
  apply (@main_success (Scripted.library [S754_nan])
           ["lm.py"; "model.bin"; "corpus.txt"] (Scripted.fresh 129)).
  vm_compute. reflexivity.
Defined.

(** ** Printing the predictions *)

Lemma py_getitem_is_Some {A} (l : list A) (x : Z) :
  is_Some (py_getitem l x)
  ↔ (- Z.of_nat (length l) ≤ x < Z.of_nat (length l))%Z.
Proof.
  unfold py_getitem. repeat case_decide; rewrite ?lookup_lt_is_Some.
  - lia.
  - lia.
  - split; [by intros [? [=]]|lia].
Qed.

Lemma py_getitem_mod {A} (l : list A) (x : Z) :
  (- Z.of_nat (length l) ≤ x < Z.of_nat (length l))%Z →
  py_getitem l x = l !! Z.to_nat (x `mod` Z.of_nat (length l)).
Proof.
  intros Hx. unfold py_getitem. repeat case_decide; try lia.
  - by rewrite Z.mod_small by lia.
  - replace (x `mod` Z.of_nat (length l))%Z
      with (Z.of_nat (length l) + x)%Z; [done|].
    apply Z.mod_unique with (q := (-1)%Z); lia.
Qed.

(** X12: a prediction can be rendered exactly when each of its symbol
    ids lies in [-n, n), [n] being the size of the vocabulary; its text
    is then the concatenation of the symbols at the ids taken modulo [n],
    so that a negative id denotes a symbol counted from the end. *)
Theorem render_in_range (symbols : list pystr) (sent : list (list Z)) :
  let n := Z.of_nat (length symbols) in
  (is_Some (render symbols sent)
   ↔ Forall (λ x, (- n ≤ x < n)%Z) (concat sent))
  ∧ (Forall (λ x, (- n ≤ x < n)%Z) (concat sent) →
     render symbols sent
     = Some (concat ((λ x, default [] (symbols !! Z.to_nat (x `mod` n)))
                       <$> concat sent))).
Proof.
  intros n. unfold render. split.
  - rewrite fmap_is_Some, mapM_is_Some. apply Forall_iff. intros x. cbn.
    apply py_getitem_is_Some.
  - intros Hall.
    apply fmap_Some. eexists. split; [|reflexivity].
    apply mapM_Some. apply Forall2_fmap_r, Forall_Forall2_diag.
    eapply Forall_impl; [exact Hall|]. intros x Hx. cbn in Hx |- *.
    rewrite py_getitem_mod by done. fold n.
    destruct (symbols !! Z.to_nat (x `mod` n)) eqn:Hlookup; [done|].
    apply lookup_ge_None in Hlookup.
    pose proof (Z.mod_pos_bound x n ltac:(lia)). unfold n in *. lia.
Qed.

(** X13: the loop over [zip(pred, scores)] prints, in order, the score
    and the rendered text of the leading predictions.  It ends early,
    with an IndexError and nothing printed for that prediction, at the
    first one that cannot be rendered; otherwise it prints as many lines
    as the shorter of the two sequences has entries. *)
Theorem print_predictions_lines (symbols : list pystr)
    (pred : list (list (list Z))) (scores : list float) :
  let r := print_predictions symbols pred scores in
  r.1.*1 = take (length r.1) scores
  ∧ Forall2 (λ line sent, render symbols sent = Some line.2)
            r.1 (take (length r.1) pred)
  ∧ if r.2
    then length r.1 < length scores
         ∧ ∃ sent, pred !! length r.1 = Some sent
                   ∧ render symbols sent = None
    else length r.1 = length pred `min` length scores.
Proof.
  revert scores. induction pred as [|sent pred IH]; intros scores.
  { cbn. split_and!; [done|constructor|done]. }
  destruct scores as [|score scores].
  { cbn. split_and!; [done|constructor|lia]. }
  cbn [print_predictions].
  destruct (render symbols sent) as [text|] eqn:Hsent.
  2: { cbn. split_and!; [done|constructor|lia|eauto]. }
  specialize (IH scores). cbn zeta in IH. destruct IH as (Hs & Hl & Hend).
  cbn [fst snd length take fmap list_fmap]. split_and!.
  - cbn. by rewrite Hs at 1.
  - by constructor.
  - destruct (print_predictions symbols pred scores).2; cbn [length lookup];
      [|lia].
    destruct Hend as (Hlt & sent' & Hlookup & Hnone).
    split; [lia|]. by exists sent'.
Qed.

(** ** The abort, seen from the whole run *)

Lemma app_split_cons {A} (l t pre post : list A) (x : A) :
  l ++ t = pre ++ x :: post →
  x ∉ t →
  ∃ post', l = pre ++ x :: post' ∧ post = post' ++ t.
Proof.
  revert l. induction pre as [|p pre IH]; intros [|y l] Heq Hx; cbn in Heq.
  - subst t. exfalso. apply Hx, list_elem_of_here.
  - injection Heq as -> <-. by exists l.
  - subst t. exfalso. apply Hx.
    apply list_elem_of_further, elem_of_app. right. apply list_elem_of_here.
  - injection Heq as -> Heq.
    destruct (IH l Heq Hx) as (post' & -> & ->). by exists post'.
Qed.

Section Abort.
Context `{Library}.

(** What a run adds to the console: nothing of training, or the events
    of one training run between the construction of the model and
    events that are not of training. *)
Lemma main_trace argv w :
  (∃ evs, trace (main argv w).2 = trace w ++ evs
          ∧ Forall (λ e, is_training e = false) evs)
  ∨ (∃ c encoded tail,
       trace (main argv w).2
       = trace w ++ EvNew c
           :: (train encoded (LanguageModel_new c)).2 ++ tail
       ∧ Forall (λ e, is_training e = false) tail).
Proof.
  assert (∀ w0 : world, ∃ evs : list event,
            trace w0 = trace w0 ++ evs
            ∧ Forall (λ e, is_training e = false) evs) as Hsame.
  { intros w0. exists []. by rewrite app_nil_r. }
  destruct (argv !! 1) as [model|] eqn:Harg.
  2: { left. unfold main, bind, argv_get, raise. rewrite Harg. apply Hsame. }
  destruct (files w !! model) as [content|] eqn:Hfile.
  - left. rewrite (main_found _ _ model) by eauto. unfold bind at 1.
    destruct (load_model_quiet model w) as (evs & Hw & Hevs).
    destruct (load_model model w) as [[e|[c lm]] w1]; cbn in Hw; subst w1.
    { by exists evs. }
    cbv beta iota. rewrite bind_ret_world.
    destruct (infer_run c lm (World (files w) (trace w ++ evs)))
      as (evs' & -> & Hevs'). cbn.
    exists (evs ++ evs'). split; [by rewrite app_assoc|by apply Forall_app].
  - pose proof (main_missing argv w model Harg Hfile) as Hmain.
    unfold bind at 1 in Hmain.
    destruct (train_model_cases argv model w)
      as [[_ Ht]|[(corpus & _ & _ & Ht)|(corpus & text & _ & _ & Ht)]];
      rewrite Ht in Hmain; rewrite Hmain; clear Hmain Ht;
      [left; apply Hsame..|].
    right.
    destruct (trained_world_spec w model text) as (_ & _ & Htrace).
    destruct (trained_world w model text) as [[c lm] w1].
    cbn [fst snd] in Htrace. rewrite bind_ret_world.
    destruct (infer_run c lm w1) as (evs & -> & Hevs). cbn [trace].
    exists c, (encode_sequences (read_sents (text_lines text))).2,
      (EvPrint (MsgSaved model) :: evs).
    split; [|by constructor].
    rewrite Htrace, <- app_assoc. cbn. by rewrite <- app_assoc.
Qed.

(** X14: in a whole run, an optimizer step that returns NaN is followed
    at once by the abort message, and by no further optimizer step or
    loss evaluation until the process ends. *)
Theorem main_stops_at_nan argv w pre b loss post :
  trace (main argv w).2 = trace w ++ pre ++ EvStep b loss :: post →
  isnan loss = true →
  ∃ rest, post = EvPrint (MsgNaN 1) :: rest
          ∧ Forall (λ e, is_training e = false) rest.
Proof.
  intros Htrace Hnan.
  destruct (main_trace argv w)
    as [(evs & Hevs & Hquiet)|(c & encoded & tail & Hevs & Hquiet)];
    rewrite Hevs in Htrace; apply app_inv_head in Htrace.
  - exfalso. rewrite Forall_forall in Hquiet.
    specialize (Hquiet (EvStep b loss)). cbn in Hquiet.
    assert (true = false); [|done]. apply Hquiet. rewrite Htrace.
    apply elem_of_app. right. apply list_elem_of_here.
  - skip_event Htrace.
    apply app_split_cons in Htrace as (post' & Htrain & ->).
    2: { intros Hin. rewrite Forall_forall in Hquiet.
         by specialize (Hquiet _ Hin). }
    rewrite train_events in Htrain.
    apply train_batches_nan_last in Htrain; [|done]. subst post'.
    by exists tail.
Qed.

End Abort.

(** X14, witness: the run whose only optimizer step returns NaN. *)
Lemma main_stops_at_nan_run :
  trace (@main (Scripted.library [S754_nan])
           ["lm.py"; "model.bin"; "corpus.txt"] (Scripted.fresh 129)).2
  = trace (Scripted.fresh 129)
    ++ take 3 (trace (@main (Scripted.library [S754_nan])
                        ["lm.py"; "model.bin"; "corpus.txt"]
                        (Scripted.fresh 129)).2)
    ++ EvStep (mask_sequences_with 0
                 [[0; 2; 3; 8; 8; 6; 4; 5; 6; 7; 8; 9; 1]%Z] 128) S754_nan
       :: drop 4 (trace (@main (Scripted.library [S754_nan])
                           ["lm.py"; "model.bin"; "corpus.txt"]
                           (Scripted.fresh 129)).2)
  ∧ isnan S754_nan = true
  ∧ ∃ rest,
      drop 4 (trace (@main (Scripted.library [S754_nan])
                       ["lm.py"; "model.bin"; "corpus.txt"]
                       (Scripted.fresh 129)).2)
      = EvPrint (MsgNaN 1) :: rest
      ∧ Forall (λ e, is_training e = false) rest.
Proof.
  assert (trace (@main (Scripted.library [S754_nan])
           ["lm.py"; "model.bin"; "corpus.txt"] (Scripted.fresh 129)).2
  = trace (Scripted.fresh 129)
    ++ take 3 (trace (@main (Scripted.library [S754_nan])
                        ["lm.py"; "model.bin"; "corpus.txt"]
                        (Scripted.fresh 129)).2)
    ++ EvStep (mask_sequences_with 0
                 [[0; 2; 3; 8; 8; 6; 4; 5; 6; 7; 8; 9; 1]%Z] 128) S754_nan
       :: drop 4 (trace (@main (Scripted.library [S754_nan])
                           ["lm.py"; "model.bin"; "corpus.txt"]
                           (Scripted.fresh 129)).2)) as Htrace
    by (vm_compute; reflexivity).
  split_and!; [exact Htrace|reflexivity|].
  exact (@main_stops_at_nan (Scripted.library [S754_nan])
           _ _ _ _ _ _ Htrace eq_refl).
Defined.
